(** * chigger.exodus.LabelExodusSource

    A shallow embedding of [python/chigger/exodus/LabelExodusSource.py]
    and the properties of its methods ([getOptions], [__init__],
    [getVTKSource], [update]).

    The class is a thin adapter: every statement of [update] is a call
    into a collaborator (the option registry, the ExodusSource being
    labelled, the chigger filters, the VTK mapper).  The embedding keeps
    the statements of the source in their order, in a small state and
    exception monad, and records each collaborator call in a log. *)

From Stdlib Require Import ZArith.
From stdpp Require Import base numbers gmap strings list fin_maps.

(** ** Python values, exceptions, indexing *)

Inductive PyValue :=
| PyNone
| PyStr (s : string)
| PyInt (z : Z)
| PyBool (b : bool).

#[export] Instance PyValue_eq_dec : EqDecision PyValue.
Proof. solve_decision. Defined.

Inductive PyException :=
| MooseException (msg : string)
| IndexError
| KeyError (key : string)
| OptionError
| CollaboratorError (what : string).

Inductive Result (A : Type) :=
| Ok (a : A)
| Raise (e : PyException).
Arguments Ok {A} a.
Arguments Raise {A} e.

(** [l[i]] of Python: a negative index counts from the end, an index out
    of range raises IndexError. *)
Definition py_getitem {A : Type} (l : list A) (i : Z) : Result A :=
  let n := Z.of_nat (length l) in
  let j := if (i <? 0)%Z then (i + n)%Z else i in
  if ((j <? 0) || (n <=? j))%Z then Raise IndexError
  else match l !! Z.to_nat j with
       | Some x => Ok x
       | None => Raise IndexError
       end.

(** ** The option registry (chigger.utils.Options) *)

Module Options.

Inductive vtype := TStr | TInt | TBool | TAny.

Record Option_ := {
  value : PyValue;
  default : PyValue;
  doc : string;
  vtype_ : vtype;
  allow : list PyValue
}.

Definition has_type (t : vtype) (v : PyValue) : bool :=
  match t, v with
  | TAny, _ => true
  | TStr, PyStr _ => true
  | TInt, PyInt _ => true
  | TBool, PyBool _ => true
  | _, _ => false
  end.

(** Modelled from the spec: the registry holds "typed, validated,
    defaultable entries"; an empty [allow] list admits every value of
    the entry's type. *)
Definition valid (o : Option_) (v : PyValue) : bool :=
  has_type (vtype_ o) v &&
  match allow o with
  | [] => true
  | _ => bool_decide (v ∈ allow o)
  end.

(** Modelled from the spec: [Options.add(name, default, doc, vtype=,
    allow=)] of chigger.utils registers one entry holding its
    default. *)
Definition add (name : string) (dflt : PyValue) (d : string)
    (t : vtype) (al : list PyValue)
    (opts : gmap string Option_) : gmap string Option_ :=
  <[name := {| value := dflt; default := dflt; doc := d;
               vtype_ := t; allow := al |}]> opts.

(** Modelled from the spec: [Options.setDefault(name, value)] of
    chigger.utils changes the default of an entry that exists (the
    entry of a freshly built registry holds its default). *)
Definition setDefault (name : string) (v : PyValue)
    (opts : gmap string Option_) : gmap string Option_ :=
  alter (λ o, {| value := v; default := v; doc := doc o;
                 vtype_ := vtype_ o; allow := allow o |}) name opts.

(** Modelled from the spec: [opt += other] of chigger.utils.Options
    takes over every entry of [other]. *)
Definition iadd (opts other : gmap string Option_) : gmap string Option_ :=
  other ∪ opts.

(** Modelled from the spec: "resetting to option defaults" puts every
    entry back to its default. *)
Definition reset (opts : gmap string Option_) : gmap string Option_ :=
  (λ o, {| value := default o; default := default o; doc := doc o;
           vtype_ := vtype_ o; allow := allow o |}) <$> opts.

Definition set_value (v : PyValue) (o : Option_) : Option_ :=
  {| value := v; default := default o; doc := doc o;
     vtype_ := vtype_ o; allow := allow o |}.

Definition accepts (opts : gmap string Option_) (k : string) (v : PyValue) : Prop :=
  match opts !! k with
  | Some o => valid o v = true
  | None => False
  end.

#[export] Instance accepts_dec opts k v : Decision (accepts opts k v).
Proof. unfold accepts. destruct (opts !! k); apply _. Defined.

(** Modelled from the spec: merging overrides validates each one
    against its entry (the key exists, the type and the allowed values
    fit) and stores it; an override that does not validate is an error
    of the registry. *)
Definition merge (kwargs : gmap string PyValue)
    (opts : gmap string Option_) : Result (gmap string Option_) :=
  if decide (map_Forall (accepts opts) kwargs) then
    Ok (map_imap (λ k o, Some match kwargs !! k with
                              | Some v => set_value v o
                              | None => o
                              end) opts)
  else Raise OptionError.

Definition get (name : string) (opts : gmap string Option_) : Result PyValue :=
  match opts !! name with
  | Some o => Ok (value o)
  | None => Raise (KeyError name)
  end.

End Options.

Arguments Options.merge : simpl never.
Arguments Options.reset : simpl never.
Arguments Options.get : simpl never.

(** ** Collaborating objects *)

(** The classes of chigger.filters the adapter instantiates, and any
    other filter class an ExodusSource may hold. *)
Inductive FilterClass :=
| IdFilter
| CellCenters
| SelectVisiblePoints
| OtherFilter (name : string).

#[export] Instance FilterClass_eq_dec : EqDecision FilterClass.
Proof. solve_decision. Defined.

(** A VTK filter object: its identity, and the renderer handed to it by
    [SetRenderer] (None until then). *)
Record vtkFilter := {
  vtk_addr : nat;
  vtk_renderer : option nat
}.

Record ChiggerFilter := {
  filter_class : FilterClass;
  getVTKFilter : vtkFilter
}.

(** What [getCurrentVariableInformation()] returns; [update] reads its
    [object_type] only. *)
Record VariableInformation := {
  object_type : Z
}.

(** The ExodusSource as the adapter sees it: the answers of the four
    accessors [update] and [getVTKSource] call.  An accessor of the
    collaborator may raise. *)
Record ExodusSource := {
  needsUpdate : bool;
  getFilters : list ChiggerFilter;
  getCurrentVariableInformation : Result VariableInformation;
  exodus_getOption : string → Result PyValue
}.

(** The argument of the constructor: any Python object. *)
Inductive PyObject :=
| PyExodusSource (e : ExodusSource)
| PyOther (class_name : string).

(** [isinstance(o, ExodusSource)], with the instance when it holds. *)
Definition as_ExodusSource (o : PyObject) : option ExodusSource :=
  match o with
  | PyExodusSource e => Some e
  | PyOther _ => None
  end.

Definition class_name_of (o : PyObject) : string :=
  match o with
  | PyExodusSource _ => "ExodusSource"
  | PyOther c => c
  end.

Inductive LabelMode := LabelIds | LabelFieldData.

(** vtk.vtkLabeledDataMapper, as far as [update] sets it. *)
Record vtkLabeledDataMapper := {
  label_mode : LabelMode;
  field_data_name : PyValue
}.

(** The calls into collaborators, in the order they are made. *)
Inductive Call :=
| Call_super_init
| Call_ExodusSource_update
| Call_setInitialOptions
| Call_setOptions (kwargs : gmap string PyValue)
| Call_new (c : FilterClass) (addr : nat)
| Call_SetLabelModeToLabelIds
| Call_getCurrentVariableInformation
| Call_SetFieldDataName (name : PyValue)
| Call_SetLabelModeToLabelFieldData
| Call_super_update (stages : list nat)
| Call_SetRenderer (addr : nat) (ren : option nat)
| Call_FontOptions_set_options (opts : gmap string Options.Option_).

(** ** The adapter object *)

(** The attributes LabelExodusSource inherits from base.ChiggerSource2D. *)
Record ChiggerSource2D := {
  _options : gmap string Options.Option_;
  _initial_options : gmap string PyValue;
  _vtkmapper : vtkLabeledDataMapper;
  _vtkrenderer : option nat;
  _required_filters : list ChiggerFilter
}.

Record LabelExodusSource := {
  base : ChiggerSource2D;
  _exodus_source : ExodusSource
}.

(** What lives outside the adapter: the allocator of object identities
    and the log of collaborator calls. *)
Record World := {
  next_addr : nat;
  calls : list Call
}.

Record Sigma := {
  self : LabelExodusSource;
  world : World
}.

Definition log (c : Call) (w : World) : World :=
  {| next_addr := next_addr w; calls := calls w ++ [c] |}.

Definition with_base (f : ChiggerSource2D → ChiggerSource2D) (s : Sigma) : Sigma :=
  {| self := {| base := f (base (self s));
                _exodus_source := _exodus_source (self s) |};
     world := world s |}.

Definition with_world (f : World → World) (s : Sigma) : Sigma :=
  {| self := self s; world := f (world s) |}.

Definition with_exodus (e : ExodusSource) (s : Sigma) : Sigma :=
  {| self := {| base := base (self s); _exodus_source := e |};
     world := world s |}.

Definition set_options (o : gmap string Options.Option_) (b : ChiggerSource2D) :=
  {| _options := o; _initial_options := _initial_options b;
     _vtkmapper := _vtkmapper b; _vtkrenderer := _vtkrenderer b;
     _required_filters := _required_filters b |}.

Definition set_vtkmapper (m : vtkLabeledDataMapper) (b : ChiggerSource2D) :=
  {| _options := _options b; _initial_options := _initial_options b;
     _vtkmapper := m; _vtkrenderer := _vtkrenderer b;
     _required_filters := _required_filters b |}.

Definition set_vtkrenderer (r : option nat) (b : ChiggerSource2D) :=
  {| _options := _options b; _initial_options := _initial_options b;
     _vtkmapper := _vtkmapper b; _vtkrenderer := r;
     _required_filters := _required_filters b |}.

Definition set_required_filters (l : list ChiggerFilter) (b : ChiggerSource2D) :=
  {| _options := _options b; _initial_options := _initial_options b;
     _vtkmapper := _vtkmapper b; _vtkrenderer := _vtkrenderer b;
     _required_filters := l |}.

(** ** The monad of method bodies

    A method runs on the adapter and the world; an exception leaves the
    mutations made before it in place. *)

Definition M (A : Type) : Type := Sigma → Result A * Sigma.

#[export] Instance M_ret : MRet M := λ A a s, (Ok a, s).
#[export] Instance M_bind : MBind M := λ A B f m s,
  match m s with
  | (Ok a, s') => f a s'
  | (Raise e, s') => (Raise e, s')
  end.

Definition gets {A : Type} (f : Sigma → A) : M A := λ s, (Ok (f s), s).
Definition modify (f : Sigma → Sigma) : M unit := λ s, (Ok tt, f s).
Definition lift {A : Type} (r : Result A) : M A := λ s, (r, s).
Definition call (c : Call) : M unit := modify (with_world (log c)).

(** ** The methods of LabelExodusSource *)

(** What the module imports and this file does not define: the constant
    [ExodusReader.ELEMENTAL], the method [ExodusSource.update] (it
    changes the source in place and may raise), and the option sets of
    [base.ChiggerSource2D] and [utils.FontOptions]. *)
Class Collaborators := {
  ELEMENTAL : Z;
  ExodusSource_update : ExodusSource → Result unit * ExodusSource;
  ChiggerSource2D_getOptions : gmap string Options.Option_;
  FontOptions_get_options : gmap string Options.Option_
}.

Section Methods.

Context `{Collaborators}.

(** The class attribute [FILTER_TYPES]. *)
Definition FILTER_TYPES : list FilterClass :=
  [IdFilter; CellCenters; SelectVisiblePoints].

Definition getOptions : gmap string Options.Option_ :=
  let opt := ChiggerSource2D_getOptions in
  let opt := Options.iadd opt FontOptions_get_options in
  let opt := Options.add "label_type" (PyStr "variable")
               "Specify the type of label to create." Options.TStr
               [PyStr "point"; PyStr "cell"; PyStr "variable"] opt in
  let opt := Options.setDefault "justification" (PyStr "center") opt in
  let opt := Options.setDefault "vertical_justification" (PyStr "middle") opt in
  opt.

(** Modelled from the spec: the constructor of base.ChiggerSource2D,
    which is not in this module.  It builds the configuration record
    from [getOptions], keeps the configuration bundle, creates the
    mapper of the requested type and starts with no filter and no
    renderer. *)
Definition ChiggerSource2D__init__ (kwargs : gmap string PyValue)
    (w : World) : ChiggerSource2D * World :=
  ({| _options := getOptions;
      _initial_options := kwargs;
      _vtkmapper := {| label_mode := LabelIds; field_data_name := PyNone |};
      _vtkrenderer := None;
      _required_filters := [] |},
   log Call_super_init w).

Definition type_message (o : PyObject) : string :=
  "The supplied object of type " +:+ class_name_of o +:+
  " must be a ExodusSource object.".

Definition __init__ (exodus_source : PyObject) (kwargs : gmap string PyValue)
    (w : World) : Result LabelExodusSource * World :=
  let (b, w) := ChiggerSource2D__init__ kwargs w in
  match as_ExodusSource exodus_source with
  | None => (Raise (MooseException (type_message exodus_source)), w)
  | Some e => (Ok {| base := b; _exodus_source := e |}, w)
  end.

Definition getVTKSource : M vtkFilter :=
  fs ← gets (λ s, getFilters (_exodus_source (self s)));
  f ← lift (py_getitem fs (-1));
  mret (getVTKFilter f).

(** [self._exodus_source.update()]: the source is shared, the call
    changes it in place. *)
Definition ExodusSource_update_call : M unit := λ s,
  let (r, e) := ExodusSource_update (_exodus_source (self s)) in
  (r, with_exodus e (with_world (log Call_ExodusSource_update) s)).

(** Modelled from the spec: [_setInitialOptions] of the base class,
    which is not in this module, resets the configuration record to the
    option defaults. *)
Definition _setInitialOptions : M unit :=
  call Call_setInitialOptions ;;
  modify (with_base (λ b, set_options (Options.reset (_options b)) b)).

(** Modelled from the spec: [setOptions] of the base class merges the
    overrides into the configuration record. *)
Definition setOptions (kwargs : gmap string PyValue) : M unit :=
  call (Call_setOptions kwargs) ;;
  opts ← gets (λ s, _options (base (self s)));
  opts' ← lift (Options.merge kwargs opts);
  modify (with_base (set_options opts')).

Definition getOption (name : string) : M PyValue :=
  opts ← gets (λ s, _options (base (self s)));
  lift (Options.get name opts).

(** [filters.C()]: a new filter object, with a VTK filter of its own. *)
Definition new_filter (c : FilterClass) : M ChiggerFilter := λ s,
  let a := next_addr (world s) in
  (Ok {| filter_class := c;
         getVTKFilter := {| vtk_addr := a; vtk_renderer := None |} |},
   with_world (λ w, {| next_addr := S a;
                       calls := calls w ++ [Call_new c a] |}) s).

Definition assign_required_filters (l : list ChiggerFilter) : M unit :=
  modify (with_base (set_required_filters l)).

Definition SetLabelModeToLabelIds : M unit :=
  call Call_SetLabelModeToLabelIds ;;
  modify (with_base (λ b, set_vtkmapper
    {| label_mode := LabelIds;
       field_data_name := field_data_name (_vtkmapper b) |} b)).

Definition SetFieldDataName (name : PyValue) : M unit :=
  call (Call_SetFieldDataName name) ;;
  modify (with_base (λ b, set_vtkmapper
    {| label_mode := label_mode (_vtkmapper b);
       field_data_name := name |} b)).

Definition SetLabelModeToLabelFieldData : M unit :=
  call Call_SetLabelModeToLabelFieldData ;;
  modify (with_base (λ b, set_vtkmapper
    {| label_mode := LabelFieldData;
       field_data_name := field_data_name (_vtkmapper b) |} b)).

Definition exodus_getCurrentVariableInformation : M VariableInformation :=
  call Call_getCurrentVariableInformation ;;
  r ← gets (λ s, getCurrentVariableInformation (_exodus_source (self s)));
  lift r.

(** [self._exodus_source.getOption(name)]. *)
Definition exodus_getOption_call (name : string) : M PyValue :=
  e ← gets (λ s, _exodus_source (self s));
  lift (exodus_getOption e name).

(** Modelled from the spec: [update] of the base class, which is not
    in this module, wires the stages of [_required_filters] into a
    linear pipeline ending in the mapper; it leaves the list itself
    alone. *)
Definition super_update : M unit :=
  fs ← gets (λ s, _required_filters (base (self s)));
  call (Call_super_update (vtk_addr ∘ getVTKFilter <$> fs)).

(** [self._required_filters[-1].getVTKFilter().SetRenderer(r)]: the
    renderer is stored in the VTK filter of the last stage, in place. *)
Definition SetRenderer_of_last : M unit :=
  fs ← gets (λ s, _required_filters (base (self s)));
  f ← lift (py_getitem fs (-1));
  ren ← gets (λ s, _vtkrenderer (base (self s)));
  call (Call_SetRenderer (vtk_addr (getVTKFilter f)) ren) ;;
  assign_required_filters
    (<[pred (length fs) :=
         {| filter_class := filter_class f;
            getVTKFilter := {| vtk_addr := vtk_addr (getVTKFilter f);
                               vtk_renderer := ren |} |}]> fs).

(** [utils.FontOptions.set_options(text_property, self._options)]. *)
Definition FontOptions_set_options : M unit :=
  opts ← gets (λ s, _options (base (self s)));
  call (Call_FontOptions_set_options opts).

Definition update (kwargs : gmap string PyValue) : M unit :=
  (* Update the ExodusSource object to be labeled *)
  stale ← gets (λ s, needsUpdate (_exodus_source (self s)));
  (if stale : bool then ExodusSource_update_call else mret tt) ;;
  (* Apply options *)
  _setInitialOptions ;;
  setOptions kwargs ;;
  (* Update the required filters based on the label type. *)
  label_type ← getOption "label_type";
  (if decide (label_type = PyStr "cell") then
     f1 ← new_filter IdFilter;
     f2 ← new_filter CellCenters;
     f3 ← new_filter SelectVisiblePoints;
     assign_required_filters [f1; f2; f3] ;;
     SetLabelModeToLabelIds
   else if decide (label_type = PyStr "point") then
     f1 ← new_filter IdFilter;
     f2 ← new_filter SelectVisiblePoints;
     assign_required_filters [f1; f2] ;;
     SetLabelModeToLabelIds
   else
     varinfo ← exodus_getCurrentVariableInformation;
     (if decide (object_type varinfo = ELEMENTAL) then
        f1 ← new_filter CellCenters;
        f2 ← new_filter SelectVisiblePoints;
        assign_required_filters [f1; f2]
      else
        f1 ← new_filter SelectVisiblePoints;
        assign_required_filters [f1]) ;;
     name ← exodus_getOption_call "variable";
     SetFieldDataName name ;;
     SetLabelModeToLabelFieldData) ;;
  (* Call base class to connect filters/mappers *)
  super_update ;;
  (* Set the renderer for the SelectVisiblePoints filter *)
  SetRenderer_of_last ;;
  (* Update fonts *)
  FontOptions_set_options.

(** ** Reading the state *)

Definition options (s : Sigma) := _options (base (self s)).
Definition required_filters (s : Sigma) := _required_filters (base (self s)).
Definition stage_classes (s : Sigma) := filter_class <$> required_filters s.
Definition stage_addrs (s : Sigma) := vtk_addr ∘ getVTKFilter <$> required_filters s.
Definition mapper (s : Sigma) := _vtkmapper (base (self s)).
Definition renderer (s : Sigma) := _vtkrenderer (base (self s)).
Definition exodus (s : Sigma) := _exodus_source (self s).

(** The source as the rest of [update] sees it: refreshed when it was
    stale, untouched otherwise. *)
Definition refreshed (s : Sigma) : Result unit * ExodusSource :=
  if needsUpdate (exodus s) then ExodusSource_update (exodus s)
  else (Ok tt, exodus s).

(** The configuration record [update kwargs] resolves to. *)
Definition resolved (kwargs : gmap string PyValue) (s : Sigma) :=
  Options.merge kwargs (Options.reset (options s)).

(** Whether the current variable of a source is elemental. *)
Definition is_elemental (e : ExodusSource) : bool :=
  match getCurrentVariableInformation e with
  | Ok vi => bool_decide (object_type vi = ELEMENTAL)
  | Raise _ => false
  end.

(** The decision table of the specification (section 4.1), written from
    its words: label type and object type to the classes of the chain. *)
Definition decision_table (label_type : PyValue) (elemental : bool) : list FilterClass :=
  if decide (label_type = PyStr "cell") then
    [IdFilter; CellCenters; SelectVisiblePoints]
  else if decide (label_type = PyStr "point") then
    [IdFilter; SelectVisiblePoints]
  else if elemental then [CellCenters; SelectVisiblePoints]
  else [SelectVisiblePoints].

(** ** The outcome of [update], phase by phase

    [outcome] spells out the state [update] leaves at each point where
    it can stop; [update_outcome] below shows that this is what the
    method body computes. *)

Definition alloc (c : FilterClass) (w : World) : World :=
  {| next_addr := S (next_addr w);
     calls := calls w ++ [Call_new c (next_addr w)] |}.

Definition stage (c : FilterClass) (a : nat) (r : option nat) : ChiggerFilter :=
  {| filter_class := c; getVTKFilter := {| vtk_addr := a; vtk_renderer := r |} |}.

Fixpoint fresh_stages (cs : list FilterClass) (n : nat) : list ChiggerFilter :=
  match cs with
  | [] => []
  | c :: cs' => stage c n None :: fresh_stages cs' (S n)
  end.

Fixpoint news (cs : list FilterClass) (n : nat) : list Call :=
  match cs with
  | [] => []
  | c :: cs' => Call_new c n :: news cs' (S n)
  end.

Definition allocs (cs : list FilterClass) (w : World) : World :=
  {| next_addr := length cs + next_addr w;
     calls := calls w ++ news cs (next_addr w) |}.

Definition s_refreshed (s : Sigma) : Sigma :=
  if needsUpdate (exodus s)
  then with_exodus (refreshed s).2 (with_world (log Call_ExodusSource_update) s)
  else s.

Definition s_reset (kwargs : gmap string PyValue) (s : Sigma) : Sigma :=
  with_world (log (Call_setOptions kwargs))
    (with_base (λ b, set_options (Options.reset (_options b)) b)
       (with_world (log Call_setInitialOptions) (s_refreshed s))).

Definition s_built (cs : list FilterClass) (s : Sigma) : Sigma :=
  with_base (set_required_filters (fresh_stages cs (next_addr (world s))))
    (with_world (allocs cs) s).

Definition s_label_ids (s : Sigma) : Sigma :=
  with_base (λ b, set_vtkmapper
      {| label_mode := LabelIds;
         field_data_name := field_data_name (_vtkmapper b) |} b)
    (with_world (log Call_SetLabelModeToLabelIds) s).

Definition s_label_field (name : PyValue) (s : Sigma) : Sigma :=
  with_base (set_vtkmapper
      {| label_mode := LabelFieldData; field_data_name := name |})
    (with_world (log Call_SetLabelModeToLabelFieldData)
       (with_world (log (Call_SetFieldDataName name)) s)).

Definition set_last_renderer (r : option nat) (fs : list ChiggerFilter) :=
  match last fs with
  | Some f => <[pred (length fs) :=
                  stage (filter_class f) (vtk_addr (getVTKFilter f)) r]> fs
  | None => fs
  end.

Definition s_wired (s : Sigma) : Sigma :=
  let fs := required_filters s in
  let s := with_world (log (Call_super_update (vtk_addr ∘ getVTKFilter <$> fs))) s in
  match last fs with
  | Some f =>
      let s := with_world
                 (log (Call_SetRenderer (vtk_addr (getVTKFilter f)) (renderer s))) s in
      let s := with_base (set_required_filters (set_last_renderer (renderer s) fs)) s in
      with_world (log (Call_FontOptions_set_options (options s))) s
  | None => s
  end.

Definition outcome (kwargs : gmap string PyValue) (s : Sigma) : Result unit * Sigma :=
  match (refreshed s).1 with
  | Raise x => (Raise x, s_refreshed s)
  | Ok _ =>
    match resolved kwargs s with
    | Raise x => (Raise x, s_reset kwargs s)
    | Ok opts' =>
      let s3 := with_base (set_options opts') (s_reset kwargs s) in
      match Options.get "label_type" opts' with
      | Raise x => (Raise x, s3)
      | Ok label_type =>
        if decide (label_type = PyStr "cell") then
          (Ok tt, s_wired (s_label_ids
             (s_built [IdFilter; CellCenters; SelectVisiblePoints] s3)))
        else if decide (label_type = PyStr "point") then
          (Ok tt, s_wired (s_label_ids
             (s_built [IdFilter; SelectVisiblePoints] s3)))
        else
          let s4 := with_world (log Call_getCurrentVariableInformation) s3 in
          match getCurrentVariableInformation (exodus s4) with
          | Raise x => (Raise x, s4)
          | Ok varinfo =>
            let s5 := s_built (if decide (object_type varinfo = ELEMENTAL)
                               then [CellCenters; SelectVisiblePoints]
                               else [SelectVisiblePoints]) s4 in
            match exodus_getOption (exodus s5) "variable" with
            | Raise x => (Raise x, s5)
            | Ok name => (Ok tt, s_wired (s_label_field name s5))
            end
          end
      end
    end
  end.

(** The branch [update] takes: from the resolved label type and the
    refreshed source to the filter classes, the mapper, and the
    collaborator calls made before and after the stages are created. *)
Inductive decided (e' : ExodusSource) (m : vtkLabeledDataMapper) :
  PyValue → list FilterClass → vtkLabeledDataMapper →
  list Call → list Call → Prop :=
| decided_cell :
    decided e' m (PyStr "cell") [IdFilter; CellCenters; SelectVisiblePoints]
      {| label_mode := LabelIds; field_data_name := field_data_name m |}
      [] [Call_SetLabelModeToLabelIds]
| decided_point :
    decided e' m (PyStr "point") [IdFilter; SelectVisiblePoints]
      {| label_mode := LabelIds; field_data_name := field_data_name m |}
      [] [Call_SetLabelModeToLabelIds]
| decided_elemental lt vi name :
    lt ≠ PyStr "cell" → lt ≠ PyStr "point" →
    getCurrentVariableInformation e' = Ok vi →
    object_type vi = ELEMENTAL →
    exodus_getOption e' "variable" = Ok name →
    decided e' m lt [CellCenters; SelectVisiblePoints]
      {| label_mode := LabelFieldData; field_data_name := name |}
      [Call_getCurrentVariableInformation]
      [Call_SetFieldDataName name; Call_SetLabelModeToLabelFieldData]
| decided_other lt vi name :
    lt ≠ PyStr "cell" → lt ≠ PyStr "point" →
    getCurrentVariableInformation e' = Ok vi →
    object_type vi ≠ ELEMENTAL →
    exodus_getOption e' "variable" = Ok name →
    decided e' m lt [SelectVisiblePoints]
      {| label_mode := LabelFieldData; field_data_name := name |}
      [Call_getCurrentVariableInformation]
      [Call_SetFieldDataName name; Call_SetLabelModeToLabelFieldData].

(** The state a completed [update kwargs] leaves, against the state it
    started from. *)
Record completed (kwargs : gmap string PyValue) (s s' : Sigma)
    (e' : ExodusSource) (opts' : gmap string Options.Option_)
    (cs : list FilterClass) (m' : vtkLabeledDataMapper)
    (pre post : list Call) : Prop := {
  completed_filters :
    required_filters s' =
    set_last_renderer (renderer s) (fresh_stages cs (next_addr (world s)));
  completed_mapper : mapper s' = m';
  completed_options : options s' = opts';
  completed_exodus : exodus s' = e';
  completed_renderer : renderer s' = renderer s;
  completed_next : next_addr (world s') = length cs + next_addr (world s);
  completed_calls :
    calls (world s') =
    calls (world s) ++
    (if needsUpdate (exodus s) then [Call_ExodusSource_update] else []) ++
    [Call_setInitialOptions; Call_setOptions kwargs] ++
    pre ++ news cs (next_addr (world s)) ++ post ++
    [Call_super_update (seq (next_addr (world s)) (length cs));
     Call_SetRenderer (Nat.pred (length cs + next_addr (world s))) (renderer s);
     Call_FontOptions_set_options opts']
}.

(** ** Histories

    The states an adapter can be in: built by the constructor, then any
    sequence of method calls (completed or raising), and any step of the
    environment, which owns the source and the renderer and may create
    objects of its own. *)
Inductive reachable : Sigma → Prop :=
| reachable_init obj kwargs w a w' :
    __init__ obj kwargs w = (Ok a, w') →
    reachable {| self := a; world := w' |}
| reachable_update kwargs s :
    reachable s → reachable (update kwargs s).2
| reachable_getVTKSource s :
    reachable s → reachable (getVTKSource s).2
| reachable_setOptions kwargs s :
    reachable s → reachable (setOptions kwargs s).2
| reachable_environment s e r w :
    reachable s → next_addr (world s) ≤ next_addr w →
    reachable {| self := {| base := set_vtkrenderer r (base (self s));
                            _exodus_source := e |};
                 world := w |}.

(** The collaborator calls made between two states. *)
Definition new_calls (s s' : Sigma) : list Call :=
  drop (length (calls (world s))) (calls (world s')).

(** The filter object a logged call created, if it is a constructor
    call. *)
Definition created (c : Call) : option (FilterClass * nat) :=
  match c with
  | Call_new k a => Some (k, a)
  | _ => None
  end.

(** Every stage in the list was created earlier. *)
Definition stages_allocated (s : Sigma) : Prop :=
  Forall (λ f, vtk_addr (getVTKFilter f) < next_addr (world s)) (required_filters s).

(** The entries and their defaults are those of [getOptions]. *)
Definition options_declared (s : Sigma) : Prop :=
  Options.reset (options s) = Options.reset getOptions.

End Methods.

(** ** A concrete setting, for the examples *)

Definition font_options_demo : gmap string Options.Option_ :=
  {[ "justification" :=
       {| Options.value := PyStr "left"; Options.default := PyStr "left";
          Options.doc := "Horizontal justification.";
          Options.vtype_ := Options.TStr;
          Options.allow := [PyStr "left"; PyStr "center"; PyStr "right"] |};
     "vertical_justification" :=
       {| Options.value := PyStr "bottom"; Options.default := PyStr "bottom";
          Options.doc := "Vertical justification.";
          Options.vtype_ := Options.TStr;
          Options.allow := [PyStr "bottom"; PyStr "middle"; PyStr "top"] |};
     "font_size" :=
       {| Options.value := PyInt 24; Options.default := PyInt 24;
          Options.doc := "Font size."; Options.vtype_ := Options.TInt;
          Options.allow := [] |} ]}.

Definition base_options_demo : gmap string Options.Option_ :=
  {[ "visible" :=
       {| Options.value := PyBool true; Options.default := PyBool true;
          Options.doc := "Visibility."; Options.vtype_ := Options.TBool;
          Options.allow := [] |} ]}.

Definition mark_updated (e : ExodusSource) : ExodusSource :=
  {| needsUpdate := false; getFilters := getFilters e;
     getCurrentVariableInformation := getCurrentVariableInformation e;
     exodus_getOption := exodus_getOption e |}.

Definition demo : Collaborators :=
  {| ELEMENTAL := 1;
     ExodusSource_update := λ e, (Ok tt, mark_updated e);
     ChiggerSource2D_getOptions := base_options_demo;
     FontOptions_get_options := font_options_demo |}.

Definition source_demo (stale : bool) (ot : Z) : ExodusSource :=
  {| needsUpdate := stale;
     getFilters := [stage (OtherFilter "GeometryFilter") 3 None;
                    stage (OtherFilter "ExtractBlock") 4 None];
     getCurrentVariableInformation := Ok {| object_type := ot |};
     exodus_getOption := λ k, if String.eqb k "variable" then Ok (PyStr "u")
                              else Raise (KeyError k) |}.

Definition world_demo : World := {| next_addr := 10; calls := [] |}.

(** The adapter right after [LabelExodusSource(source)]. *)
Definition s_demo (e : ExodusSource) : Sigma :=
  {| self := {| base := (@ChiggerSource2D__init__ demo ∅ world_demo).1;
                _exodus_source := e |};
     world := (@ChiggerSource2D__init__ demo ∅ world_demo).2 |}.

Definition kw_label (v : string) : gmap string PyValue :=
  {[ "label_type" := PyStr v ]}.

(** The scene attaches a renderer to the adapter. *)
Definition attach_renderer (r : nat) (s : Sigma) : Sigma :=
  with_base (set_vtkrenderer (Some r)) s.

Definition s_rendered (e : ExodusSource) : Sigma :=
  attach_renderer 7 (s_demo e).

(** A source that holds no filter yet. *)
Definition source_empty : ExodusSource :=
  {| needsUpdate := true; getFilters := [];
     getCurrentVariableInformation := Raise (CollaboratorError "no variable");
     exodus_getOption := λ k, Raise (KeyError k) |}.

(** A source with a current variable whose 'variable' option cannot be
    read. *)
Definition source_unnamed : ExodusSource :=
  {| needsUpdate := false; getFilters := [];
     getCurrentVariableInformation := Ok {| object_type := 1 |};
     exodus_getOption := λ k, Raise (KeyError k) |}.

(** A setting in which refreshing the source fails. *)
Definition demo_failing : Collaborators :=
  {| ELEMENTAL := 1;
     ExodusSource_update := λ e, (Raise (CollaboratorError "read"), e);
     ChiggerSource2D_getOptions := base_options_demo;
     FontOptions_get_options := font_options_demo |}.


(** The record [update kw] resolves to on the adapter [s_demo e]. *)
Definition resolved_demo (kw : gmap string PyValue) (e : ExodusSource) :
    gmap string Options.Option_ :=
  match resolved kw (s_demo e) with
  | Ok o => o
  | Raise _ => ∅
  end.

(** * Properties *)

Section Properties.

Context `{Collaborators}.

(** ** Indexing *)

Lemma py_getitem_last {A} (l : list A) :
  py_getitem l (-1) =
  match last l with Some x => Ok x | None => Raise IndexError end.
Proof.
  unfold py_getitem. rewrite last_lookup.
  destruct l as [|a l]; [reflexivity|].
  cbn [length Nat.pred].
  replace (-1 <? 0)%Z with true by reflexivity.
  assert (Hn : (-1 + Z.of_nat (S (length l)))%Z = Z.of_nat (length l)) by lia.
  rewrite Hn, Nat2Z.id.
  replace ((Z.of_nat (length l) <? 0)%Z
           || (Z.of_nat (S (length l)) <=? Z.of_nat (length l))%Z)
    with false.
  - destruct ((a :: l) !! length l) eqn:E; [reflexivity|].
    apply lookup_ge_None in E. cbn in E. lia.
  - symmetry. apply orb_false_intro; [apply Z.ltb_ge | apply Z.leb_gt]; lia.
Qed.

(** ** The option registry *)

Lemma reset_reset (opts : gmap string Options.Option_) :
  Options.reset (Options.reset opts) = Options.reset opts.
Proof.
  unfold Options.reset. rewrite <- map_fmap_compose.
  apply map_fmap_ext. intros k o _. reflexivity.
Qed.

Lemma reset_merge kwargs (opts opts' : gmap string Options.Option_) :
  Options.merge kwargs opts = Ok opts' →
  Options.reset opts' = Options.reset opts.
Proof.
  unfold Options.merge. case_decide; [|discriminate].
  intros [= <-]. apply map_eq. intros k.
  unfold Options.reset. rewrite !lookup_fmap, map_lookup_imap.
  destruct (opts !! k) as [o|]; [|reflexivity]. cbn.
  destruct (kwargs !! k); reflexivity.
Qed.


(** ** Running a method body step by step *)

Lemma bind_assoc {A B C} (m : M A) (f : A → M B) (g : B → M C) s :
  ((m ≫= f) ≫= g) s = (m ≫= λ a, f a ≫= g) s.
Proof. unfold mbind, M_bind. destruct (m s) as [[a|x] s1]; reflexivity. Qed.

Lemma bind_ret {A B} (a : A) (k : A → M B) s : (mret a ≫= k) s = k a s.
Proof. reflexivity. Qed.

Lemma bind_gets {A B} (f : Sigma → A) (k : A → M B) s :
  (gets f ≫= k) s = k (f s) s.
Proof. reflexivity. Qed.

Lemma bind_modify {B} (g : Sigma → Sigma) (k : unit → M B) s :
  (modify g ≫= k) s = k tt (g s).
Proof. reflexivity. Qed.

Lemma bind_call {B} (c : Call) (k : unit → M B) s :
  (call c ≫= k) s = k tt (with_world (log c) s).
Proof. reflexivity. Qed.

Lemma bind_lift {A B} (r : Result A) (k : A → M B) s :
  (lift r ≫= k) s = match r with Ok a => k a s | Raise x => (Raise x, s) end.
Proof. unfold mbind, M_bind, lift. destruct r; reflexivity. Qed.

Lemma bind_new_filter {B} (c : FilterClass) (k : ChiggerFilter → M B) s :
  (new_filter c ≫= k) s =
  k (stage c (next_addr (world s)) None) (with_world (alloc c) s).
Proof. reflexivity. Qed.

Lemma base_s_refreshed s : base (self (s_refreshed s)) = base (self s).
Proof. unfold s_refreshed. destruct (needsUpdate _); reflexivity. Qed.

Lemma exodus_s_refreshed s :
  _exodus_source (self (s_refreshed s)) = (refreshed s).2.
Proof.
  unfold s_refreshed, refreshed, exodus. destruct (needsUpdate _); reflexivity.
Qed.

Lemma next_addr_s_refreshed s :
  next_addr (world (s_refreshed s)) = next_addr (world s).
Proof. unfold s_refreshed. destruct (needsUpdate _); reflexivity. Qed.

Lemma calls_s_refreshed s :
  calls (world (s_refreshed s)) =
  calls (world s) ++
  (if needsUpdate (exodus s) then [Call_ExodusSource_update] else []).
Proof.
  unfold s_refreshed. destruct (needsUpdate _); [reflexivity|].
  symmetry. apply app_nil_r.
Qed.

Lemma bind_refresh {B} (k : unit → M B) s :
  ((if needsUpdate (_exodus_source (self s))
    then ExodusSource_update_call else mret tt) ≫= k) s =
  match (refreshed s).1 with
  | Ok _ => k tt (s_refreshed s)
  | Raise x => (Raise x, s_refreshed s)
  end.
Proof.
  unfold refreshed, s_refreshed, refreshed, exodus.
  destruct (needsUpdate _); [|reflexivity].
  unfold mbind, M_bind, ExodusSource_update_call.
  destruct (ExodusSource_update _) as [[[]|x] e1]; reflexivity.
Qed.

Lemma Sigma_eq (s1 s2 : Sigma) :
  base (self s1) = base (self s2) →
  _exodus_source (self s1) = _exodus_source (self s2) →
  next_addr (world s1) = next_addr (world s2) →
  calls (world s1) = calls (world s2) →
  s1 = s2.
Proof.
  destruct s1 as [[b1 e1] [n1 c1]], s2 as [[b2 e2] [n2 c2]]. cbn.
  intros -> -> -> ->. reflexivity.
Qed.

Ltac proj :=
  cbn [with_base with_world with_exodus set_options set_vtkmapper
       set_vtkrenderer set_required_filters self world base
       _exodus_source _options _initial_options _vtkmapper _vtkrenderer
       _required_filters next_addr calls log alloc fst snd
       label_mode field_data_name filter_class getVTKFilter vtk_addr
       vtk_renderer stage].

Ltac step :=
  first [ rewrite bind_assoc | rewrite bind_ret | rewrite bind_gets
        | rewrite bind_modify | rewrite bind_call | rewrite bind_lift
        | rewrite bind_new_filter ];
  cbv beta; proj.

Ltac open_methods :=
  unfold update, _setInitialOptions, setOptions, getOption,
    SetLabelModeToLabelIds, SetFieldDataName,
    SetLabelModeToLabelFieldData, exodus_getCurrentVariableInformation,
    exodus_getOption_call, super_update, SetRenderer_of_last,
    FontOptions_set_options;
  unfold assign_required_filters.

Ltac unfold_phases :=
  unfold s_wired, s_label_ids, s_label_field, s_built, s_reset,
    set_last_renderer, allocs, mapper, required_filters, renderer,
    options, exodus;
  proj;
  cbn [last fresh_stages news length Nat.pred Nat.add fmap list_fmap seq app];
  proj.

Ltac close_run :=
  unfold call, modify; unfold_phases;
  f_equal; apply Sigma_eq; proj; rewrite <- ?app_assoc; reflexivity.

Lemma update_outcome kwargs s : update kwargs s = outcome kwargs s.
Proof.
  unfold outcome, s_reset, resolved, options.
  open_methods. step. rewrite bind_refresh.
  destruct (refreshed s).1 as [[]|x]; [|reflexivity].
  repeat step. rewrite base_s_refreshed.
  destruct (Options.merge _ _) as [opts'|x]; [|reflexivity].
  repeat step.
  destruct (Options.get _ _) as [lt|x]; [|reflexivity].
  destruct (decide (lt = PyStr "cell")); [|destruct (decide (lt = PyStr "point"))].
  - repeat step. rewrite py_getitem_last. cbn [last]. repeat step. close_run.
  - repeat step. rewrite py_getitem_last. cbn [last]. repeat step. close_run.
  - repeat step. unfold exodus. proj.
    destruct (getCurrentVariableInformation _) as [vi|x]; [|reflexivity].
    destruct (decide (object_type vi = ELEMENTAL)).
    + repeat step.
      destruct (exodus_getOption _ _) as [name|x]; [|close_run].
      repeat step. rewrite py_getitem_last. cbn [last]. repeat step. close_run.
    + repeat step.
      destruct (exodus_getOption _ _) as [name|x]; [|close_run].
      repeat step. rewrite py_getitem_last. cbn [last]. repeat step. close_run.
Qed.

Ltac facts :=
  unfold_phases;
  rewrite ?base_s_refreshed, ?next_addr_s_refreshed, ?calls_s_refreshed;
  rewrite ?exodus_s_refreshed; rewrite <- ?app_assoc;
  cbn [last fresh_stages news length Nat.pred Nat.add fmap list_fmap seq app
       fst snd compose vtk_addr getVTKFilter stage];
  try reflexivity.

Lemma exodus_after_reset kwargs s opts' (f : World → World) :
  exodus (with_world f (with_base (set_options opts') (s_reset kwargs s))) =
  (refreshed s).2.
Proof. unfold exodus, s_reset. proj. apply exodus_s_refreshed. Qed.

Lemma exodus_after_build kwargs s opts' cs (f : World → World) :
  exodus (s_built cs (with_world f
            (with_base (set_options opts') (s_reset kwargs s)))) =
  (refreshed s).2.
Proof. unfold exodus, s_built, s_reset. proj. apply exodus_s_refreshed. Qed.

Lemma update_complete kwargs s e' opts' lt cs m' pre post :
  refreshed s = (Ok tt, e') →
  resolved kwargs s = Ok opts' →
  Options.get "label_type" opts' = Ok lt →
  decided e' (mapper s) lt cs m' pre post →
  ∃ s', update kwargs s = (Ok tt, s') ∧
        completed kwargs s s' e' opts' cs m' pre post.
Proof.
  intros Hr Hm Hl Hd. rewrite update_outcome. unfold outcome.
  rewrite Hm, Hl. rewrite Hr. cbn [fst].
  destruct Hd as [| |lt vi name H1 H2 Hv Ho Hn|lt vi name H1 H2 Hv Ho Hn].
  - rewrite decide_True by reflexivity.
    eexists; split; [reflexivity|]. split; facts; rewrite Hr; reflexivity.
  - rewrite decide_False by discriminate. rewrite decide_True by reflexivity.
    eexists; split; [reflexivity|]. split; facts; rewrite Hr; reflexivity.
  - rewrite decide_False by assumption. rewrite decide_False by assumption.
    rewrite exodus_after_reset, Hr. cbn [snd].
    rewrite Hv. rewrite decide_True by assumption.
    rewrite exodus_after_build, Hr. cbn [snd]. rewrite Hn.
    eexists; split; [reflexivity|]. split; facts; rewrite Hr; reflexivity.
  - rewrite decide_False by assumption. rewrite decide_False by assumption.
    rewrite exodus_after_reset, Hr. cbn [snd].
    rewrite Hv. rewrite decide_False by assumption.
    rewrite exodus_after_build, Hr. cbn [snd]. rewrite Hn.
    eexists; split; [reflexivity|]. split; facts; rewrite Hr; reflexivity.
Qed.

Lemma update_Ok_inv kwargs s s' :
  update kwargs s = (Ok tt, s') →
  ∃ e' opts' lt cs m' pre post,
    refreshed s = (Ok tt, e') ∧
    resolved kwargs s = Ok opts' ∧
    Options.get "label_type" opts' = Ok lt ∧
    decided e' (mapper s) lt cs m' pre post ∧
    completed kwargs s s' e' opts' cs m' pre post.
Proof.
  intros Hu.
  assert (Hu' := Hu). rewrite update_outcome in Hu'. unfold outcome in Hu'.
  destruct (refreshed s) as [[[]|x] e'] eqn:Hr; [|discriminate]. cbn [fst] in Hu'.
  destruct (resolved kwargs s) as [opts'|x] eqn:Hm; [|discriminate].
  destruct (Options.get "label_type" opts') as [lt|x] eqn:Hl; [|discriminate].
  assert (Hd : ∃ cs m' pre post, decided e' (mapper s) lt cs m' pre post).
  { destruct (decide (lt = PyStr "cell")) as [->|H1];
      [do 4 eexists; apply decided_cell|].
    destruct (decide (lt = PyStr "point")) as [->|H2];
      [do 4 eexists; apply decided_point|].
    rewrite exodus_after_reset, Hr in Hu'. cbn [snd] in Hu'.
    destruct (getCurrentVariableInformation e') as [vi|x] eqn:Hv; [|discriminate].
    rewrite exodus_after_build, Hr in Hu'. cbn [snd] in Hu'.
    destruct (exodus_getOption e' "variable") as [name|x] eqn:Hn; [|discriminate].
    destruct (decide (object_type vi = ELEMENTAL)) as [Ho|Ho].
    - do 4 eexists. eapply decided_elemental; eassumption.
    - do 4 eexists. eapply decided_other; eassumption. }
  destruct Hd as (cs & m' & pre & post & Hd).
  destruct (update_complete kwargs s e' opts' lt cs m' pre post Hr Hm Hl Hd)
    as (s'' & Hu'' & Hc).
  rewrite Hu in Hu''. injection Hu'' as <-.
  eauto 12.
Qed.

(** Where a raising [update] stops, and the state it leaves there. *)
Lemma update_Raise_inv kwargs s x s' :
  update kwargs s = (Raise x, s') →
  ((refreshed s).1 = Raise x ∧ s' = s_refreshed s) ∨
  ((refreshed s).1 = Ok tt ∧
   ((resolved kwargs s = Raise x ∧ s' = s_reset kwargs s) ∨
    ∃ opts', resolved kwargs s = Ok opts' ∧
      let s3 := with_base (set_options opts') (s_reset kwargs s) in
      let s4 := with_world (log Call_getCurrentVariableInformation) s3 in
      s' = s3 ∨ s' = s4 ∨ ∃ cs, s' = s_built cs s4)).
Proof.
  rewrite update_outcome. unfold outcome.
  destruct (refreshed s).1 as [[]|y] eqn:Hr; [|intros [= -> <-]; auto].
  intros Hu. right. split; [reflexivity|].
  destruct (resolved kwargs s) as [opts'|y]; [|injection Hu as -> <-; auto].
  right. exists opts'. split; [reflexivity|]. cbv zeta.
  destruct (Options.get "label_type" opts') as [lt|y];
    [|injection Hu as -> <-; auto].
  destruct (decide (lt = PyStr "cell")); [discriminate|].
  destruct (decide (lt = PyStr "point")); [discriminate|].
  destruct (getCurrentVariableInformation _) as [vi|y];
    [|injection Hu as -> <-; auto].
  destruct (exodus_getOption _ _) as [name|y]; [discriminate|].
  injection Hu as -> <-. eauto.
Qed.

Lemma stage_addrs_fresh cs n :
  vtk_addr ∘ getVTKFilter <$> fresh_stages cs n = seq n (length cs).
Proof.
  revert n. induction cs as [|c cs IH]; intros n; [reflexivity|].
  cbn. f_equal. apply IH.
Qed.

Lemma stage_addrs_set_last r fs :
  vtk_addr ∘ getVTKFilter <$> set_last_renderer r fs =
  vtk_addr ∘ getVTKFilter <$> fs.
Proof.
  unfold set_last_renderer. rewrite last_lookup.
  destruct (fs !! pred (length fs)) as [f|] eqn:E; [|reflexivity].
  rewrite list_fmap_insert. apply list_insert_id.
  rewrite list_lookup_fmap, E. reflexivity.
Qed.

Lemma stage_classes_fresh cs n : filter_class <$> fresh_stages cs n = cs.
Proof.
  revert n. induction cs as [|c cs IH]; intros n; [reflexivity|].
  cbn. f_equal. apply IH.
Qed.

Lemma stage_classes_set_last r fs :
  filter_class <$> set_last_renderer r fs = filter_class <$> fs.
Proof.
  unfold set_last_renderer. rewrite last_lookup.
  destruct (fs !! pred (length fs)) as [f|] eqn:E; [|reflexivity].
  rewrite list_fmap_insert. apply list_insert_id.
  rewrite list_lookup_fmap, E. reflexivity.
Qed.

Lemma completed_stage_addrs kwargs s s' e' opts' cs m' pre post :
  completed kwargs s s' e' opts' cs m' pre post →
  stage_addrs s' = seq (next_addr (world s)) (length cs).
Proof.
  intros Hc. unfold stage_addrs. rewrite (completed_filters _ _ _ _ _ _ _ _ _ Hc).
  rewrite stage_addrs_set_last. apply stage_addrs_fresh.
Qed.

Lemma completed_stage_classes kwargs s s' e' opts' cs m' pre post :
  completed kwargs s s' e' opts' cs m' pre post →
  stage_classes s' = cs.
Proof.
  intros Hc. unfold stage_classes. rewrite (completed_filters _ _ _ _ _ _ _ _ _ Hc).
  rewrite stage_classes_set_last. apply stage_classes_fresh.
Qed.

(** What every [update] keeps, whether it completes or raises: the
    entries and defaults of the registry, the renderer, the order of the
    allocator; the stage list is either the old one or made of objects
    created in this call. *)
Lemma update_frame kwargs s :
  let s' := (update kwargs s).2 in
  Options.reset (options s') = Options.reset (options s) ∧
  renderer s' = renderer s ∧
  exodus s' = (refreshed s).2 ∧
  ((required_filters s' = required_filters s ∧
    next_addr (world s') = next_addr (world s)) ∨
   ∃ cs : list FilterClass,
     stage_addrs s' = seq (next_addr (world s)) (length cs) ∧
     next_addr (world s') = length cs + next_addr (world s)).
Proof.
  cbv zeta. destruct (update kwargs s) as [[[]|x] s'] eqn:Hu; cbn [snd].
  - destruct (update_Ok_inv _ _ _ Hu)
      as (e' & opts' & lt & cs & m' & pre & post & Hr & Hm & Hl & Hd & Hc).
    rewrite Hr. cbn [snd]. repeat split.
    + rewrite (completed_options _ _ _ _ _ _ _ _ _ Hc).
      unfold resolved in Hm. rewrite (reset_merge _ _ _ Hm). apply reset_reset.
    + apply (completed_renderer _ _ _ _ _ _ _ _ _ Hc).
    + apply (completed_exodus _ _ _ _ _ _ _ _ _ Hc).
    + right. exists cs. split.
      * eapply completed_stage_addrs, Hc.
      * apply (completed_next _ _ _ _ _ _ _ _ _ Hc).
  - destruct (update_Raise_inv _ _ _ _ Hu)
      as [[Hr ->]|[Hr [[Hm ->]|(opts' & Hm & Hs)]]].
    + unfold options, renderer, required_filters, exodus.
      rewrite base_s_refreshed, exodus_s_refreshed, next_addr_s_refreshed. auto 10.
    + unfold options, renderer, required_filters, exodus, s_reset. proj.
      rewrite base_s_refreshed, exodus_s_refreshed, next_addr_s_refreshed.
      rewrite reset_reset. auto 10.
    + cbv zeta in Hs. unfold resolved in Hm. apply reset_merge in Hm.
      rewrite reset_reset in Hm.
      destruct Hs as [->|[->|[cs ->]]];
        unfold options, renderer, required_filters, stage_addrs, exodus,
          s_built, s_reset, required_filters, allocs; proj;
        rewrite ?base_s_refreshed, ?exodus_s_refreshed, ?next_addr_s_refreshed;
        [auto 10 | auto 10 |].
      repeat split; [assumption|]. right. exists cs.
      split; [apply stage_addrs_fresh|reflexivity].
Qed.

Lemma setOptions_frame kwargs s :
  let s' := (setOptions kwargs s).2 in
  Options.reset (options s') = Options.reset (options s) ∧
  required_filters s' = required_filters s ∧
  next_addr (world s') = next_addr (world s).
Proof.
  cbv zeta. unfold setOptions. repeat step.
  destruct (Options.merge kwargs _) as [opts'|x] eqn:Hm; [|auto].
  unfold modify, options, required_filters. proj.
  split; [|auto]. apply (reset_merge _ _ _ Hm).
Qed.

Lemma getVTKSource_state s : (getVTKSource s).2 = s.
Proof.
  unfold getVTKSource. repeat step.
  destruct (py_getitem _ _); reflexivity.
Qed.

Lemma reachable_invariant s :
  reachable s → options_declared s ∧ stages_allocated s.
Proof.
  unfold options_declared, stages_allocated.
  induction 1 as [obj kwargs w a w' Hi|kwargs s _ [IH1 IH2]|s _ IH
                 |kwargs s _ [IH1 IH2]|s e r w _ [IH1 IH2] Hle].
  - unfold __init__, ChiggerSource2D__init__ in Hi.
    destruct (as_ExodusSource obj); [|discriminate].
    injection Hi as <- <-. split; [reflexivity|constructor].
  - destruct (update_frame kwargs s) as (Ho & _ & _ & Hf). cbv zeta in *.
    split; [congruence|].
    destruct Hf as [[-> ->]|(cs & Ha & ->)]; [assumption|].
    apply Forall_fmap with (f := vtk_addr ∘ getVTKFilter) (P := λ a, a < _).
    fold (stage_addrs (update kwargs s).2). rewrite Ha.
    apply Forall_forall. intros a Ha'. apply elem_of_seq in Ha'. lia.
  - rewrite getVTKSource_state. assumption.
  - destruct (setOptions_frame kwargs s) as (Ho & -> & ->).
    split; [congruence|assumption].
  - unfold options, required_filters in *. cbn. split; [assumption|].
    eapply Forall_impl; [exact IH2|]. cbn. intros f Hf. lia.
Qed.

(** ** Consequences for the log and the chain *)

Lemma completed_new_calls kwargs s s' e' opts' cs m' pre post :
  completed kwargs s s' e' opts' cs m' pre post →
  new_calls s s' =
  (if needsUpdate (exodus s) then [Call_ExodusSource_update] else []) ++
  [Call_setInitialOptions; Call_setOptions kwargs] ++
  pre ++ news cs (next_addr (world s)) ++ post ++
  [Call_super_update (seq (next_addr (world s)) (length cs));
   Call_SetRenderer (Nat.pred (length cs + next_addr (world s))) (renderer s);
   Call_FontOptions_set_options opts'].
Proof.
  intros Hc. unfold new_calls.
  rewrite (completed_calls _ _ _ _ _ _ _ _ _ Hc). apply drop_app_length.
Qed.

Ltac not_in_list :=
  let Hin := fresh "Hin" in
  intros Hin; cbn [app news] in Hin;
  repeat (apply elem_of_cons in Hin; destruct Hin as [Hin|Hin]; [discriminate Hin|]);
  apply elem_of_nil in Hin; exact Hin.

(** The chain and the registry after a completed [update], against the
    decision table. *)
Lemma update_consistent kwargs s s' :
  update kwargs s = (Ok tt, s') →
  resolved kwargs s = Ok (options s') ∧
  ∃ lt, Options.get "label_type" (options s') = Ok lt ∧
        stage_classes s' = decision_table lt (is_elemental (exodus s')).
Proof.
  intros Hu. destruct (update_Ok_inv _ _ _ Hu)
    as (e' & opts' & lt & cs & m' & pre & post & Hr & Hm & Hl & Hd & Hc).
  rewrite (completed_options _ _ _ _ _ _ _ _ _ Hc),
    (completed_exodus _ _ _ _ _ _ _ _ _ Hc),
    (completed_stage_classes _ _ _ _ _ _ _ _ _ Hc).
  split; [exact Hm|]. exists lt. split; [exact Hl|].
  unfold decision_table, is_elemental.
  destruct Hd as [| |lt vi name H1 H2 Hv Ho Hn|lt vi name H1 H2 Hv Ho Hn].
  - rewrite decide_True by reflexivity. reflexivity.
  - rewrite decide_False by discriminate. rewrite decide_True by reflexivity.
    reflexivity.
  - rewrite decide_False by assumption. rewrite decide_False by assumption.
    rewrite Hv, bool_decide_true by assumption. reflexivity.
  - rewrite decide_False by assumption. rewrite decide_False by assumption.
    rewrite Hv, bool_decide_false by assumption. reflexivity.
Qed.

(** The stages of a completed [update] were all created in it. *)
Lemma update_fresh kwargs s s' :
  stages_allocated s →
  update kwargs s = (Ok tt, s') →
  ∀ f g, f ∈ required_filters s' → g ∈ required_filters s →
         vtk_addr (getVTKFilter f) ≠ vtk_addr (getVTKFilter g).
Proof.
  intros Ha Hu f g Hf Hg.
  destruct (update_Ok_inv _ _ _ Hu)
    as (e' & opts' & lt & cs & m' & pre & post & _ & _ & _ & _ & Hc).
  assert (Hf' : vtk_addr (getVTKFilter f) ∈ stage_addrs s').
  { unfold stage_addrs. apply (list_elem_of_fmap_2 (vtk_addr ∘ getVTKFilter)), Hf. }
  rewrite (completed_stage_addrs _ _ _ _ _ _ _ _ _ Hc) in Hf'.
  apply elem_of_seq in Hf'.
  unfold stages_allocated in Ha. rewrite Forall_forall in Ha.
  specialize (Ha g Hg). lia.
Qed.

Lemma refresh_not_in_news cs n : Call_ExodusSource_update ∉ news cs n.
Proof.
  revert n. induction cs as [|c cs IH]; intros n; cbn.
  - apply not_elem_of_nil.
  - intros [Heq|Hin]%elem_of_cons; [discriminate|]. exact (IH _ Hin).
Qed.

(** The calls of any [update], completed or not: the refresh comes
    first, if at all, and only once. *)
Lemma update_calls kwargs s :
  ∃ rest,
    new_calls s ((update kwargs s).2) =
    (if needsUpdate (exodus s) then [Call_ExodusSource_update] else []) ++ rest ∧
    (Call_ExodusSource_update ∉ rest) ∧
    match (refreshed s).1 with
    | Ok _ => ∃ rest', rest = Call_setInitialOptions :: Call_setOptions kwargs :: rest'
    | Raise x => rest = [] ∧ (update kwargs s).1 = Raise x ∧
                 base (self (update kwargs s).2) = base (self s)
    end.
Proof.
  destruct (update kwargs s) as [[[]|x] s'] eqn:Hu; cbn [fst snd].
  - destruct (update_Ok_inv _ _ _ Hu)
      as (e' & opts' & lt & cs & m' & pre & post & Hr & Hm & Hl & Hd & Hc).
    rewrite (completed_new_calls _ _ _ _ _ _ _ _ _ Hc), Hr. cbn [fst].
    eexists. split; [reflexivity|]. split; [|eexists; reflexivity].
    destruct Hd; not_in_list.
  - unfold new_calls.
    destruct (update_Raise_inv _ _ _ _ Hu)
      as [[Hr ->]|[Hr [[Hm ->]|(opts' & Hm & Hs)]]]; rewrite Hr.
    + rewrite calls_s_refreshed, drop_app_length, base_s_refreshed.
      exists []. rewrite app_nil_r. repeat split. apply not_elem_of_nil.
    + unfold s_reset. proj.
      rewrite calls_s_refreshed, <- !app_assoc, drop_app_length.
      eexists. split; [reflexivity|]. split; [not_in_list|eexists; reflexivity].
    + cbv zeta in Hs.
      destruct Hs as [->|[->|[cs ->]]]; unfold s_built, s_reset, allocs; proj;
        rewrite calls_s_refreshed, <- !app_assoc, drop_app_length;
        (eexists; split; [reflexivity|]; split; [|eexists; reflexivity]);
        [not_in_list|not_in_list|].
      cbn [app]. intros Hin.
      repeat (apply elem_of_cons in Hin; destruct Hin as [Hin|Hin]; [discriminate Hin|]).
      rewrite next_addr_s_refreshed in Hin. exact (refresh_not_in_news _ _ Hin).
Qed.

(** ** The claims *)

(** C1. For every call to update(): when the resolved label_type is
    'cell', the call completes with the filter chain exactly
    [IdFilter, CellCenters, SelectVisiblePoints] and the mapper labelling
    by id; when it is 'point', with the chain exactly
    [IdFilter, SelectVisiblePoints] and the mapper labelling by id.  The
    variable metadata of the source plays no part: the statement holds
    for every source, and the metadata is not even queried. *)
Theorem update_label_by_id kwargs s e' opts' :
  refreshed s = (Ok tt, e') →
  resolved kwargs s = Ok opts' →
  (Options.get "label_type" opts' = Ok (PyStr "cell") →
   ∃ s', update kwargs s = (Ok tt, s') ∧ options s' = opts' ∧
     stage_classes s' = [IdFilter; CellCenters; SelectVisiblePoints] ∧
     label_mode (mapper s') = LabelIds ∧
     Call_getCurrentVariableInformation ∉ new_calls s s') ∧
  (Options.get "label_type" opts' = Ok (PyStr "point") →
   ∃ s', update kwargs s = (Ok tt, s') ∧ options s' = opts' ∧
     stage_classes s' = [IdFilter; SelectVisiblePoints] ∧
     label_mode (mapper s') = LabelIds ∧
     Call_getCurrentVariableInformation ∉ new_calls s s').
Proof.
  intros Hr Hm. split; intros Hl.
  - destruct (update_complete kwargs s e' opts' _ _ _ _ _ Hr Hm Hl
                (decided_cell e' (mapper s))) as (s' & Hu & Hc).
    exists s'. split; [exact Hu|].
    split; [apply (completed_options _ _ _ _ _ _ _ _ _ Hc)|].
    split; [eapply completed_stage_classes, Hc|].
    split; [rewrite (completed_mapper _ _ _ _ _ _ _ _ _ Hc); reflexivity|].
    rewrite (completed_new_calls _ _ _ _ _ _ _ _ _ Hc).
    destruct (needsUpdate (exodus s)); not_in_list.
  - destruct (update_complete kwargs s e' opts' _ _ _ _ _ Hr Hm Hl
                (decided_point e' (mapper s))) as (s' & Hu & Hc).
    exists s'. split; [exact Hu|].
    split; [apply (completed_options _ _ _ _ _ _ _ _ _ Hc)|].
    split; [eapply completed_stage_classes, Hc|].
    split; [rewrite (completed_mapper _ _ _ _ _ _ _ _ _ Hc); reflexivity|].
    rewrite (completed_new_calls _ _ _ _ _ _ _ _ _ Hc).
    destruct (needsUpdate (exodus s)); not_in_list.
Qed.



(** C4. After every completed update() the filter chain is the one the
    decision table gives for the label type and the object type read in
    that call; every stage in it was created in that call, so it shares
    no stage with the list of before; and after two calls in a row no
    stage of the first call is left in the list.  The list is never
    patched: whatever way a call ends, its list is the old one, untouched,
    or one made of new stages only. *)
Theorem update_rebuilds_chain kwargs s :
  reachable s →
  (∀ s', update kwargs s = (Ok tt, s') →
     (∃ lt, Options.get "label_type" (options s') = Ok lt ∧
            stage_classes s' = decision_table lt (is_elemental (exodus s'))) ∧
     (∀ f g, f ∈ required_filters s' → g ∈ required_filters s →
             vtk_addr (getVTKFilter f) ≠ vtk_addr (getVTKFilter g)) ∧
     (∀ a, a ∈ stage_addrs s' → ∃ c, Call_new c a ∈ new_calls s s') ∧
     NoDup (stage_addrs s') ∧
     (∀ kwargs2 s2, update kwargs2 s' = (Ok tt, s2) →
        ∀ f g, f ∈ required_filters s2 → g ∈ required_filters s' →
               vtk_addr (getVTKFilter f) ≠ vtk_addr (getVTKFilter g))) ∧
  (required_filters (update kwargs s).2 = required_filters s ∨
   ∀ f g, f ∈ required_filters (update kwargs s).2 → g ∈ required_filters s →
          vtk_addr (getVTKFilter f) ≠ vtk_addr (getVTKFilter g)).
Proof.
  intros Hreach. split.
  - intros s' Hu.
    assert (Hreach' : reachable s').
    { replace s' with (update kwargs s).2 by (rewrite Hu; reflexivity).
      apply reachable_update, Hreach. }
    split; [apply (update_consistent _ _ _ Hu)|].
    split; [apply (update_fresh _ _ _ (proj2 (reachable_invariant _ Hreach)) Hu)|].
    destruct (update_Ok_inv _ _ _ Hu)
      as (e' & opts' & lt & cs & m' & pre & post & _ & _ & _ & Hd & Hc).
    split; [|split].
    + rewrite (completed_stage_addrs _ _ _ _ _ _ _ _ _ Hc),
        (completed_new_calls _ _ _ _ _ _ _ _ _ Hc).
      intros a Ha.
      assert (Hn : ∃ c, Call_new c a ∈ news cs (next_addr (world s))).
      { clear -Ha. revert Ha. generalize (next_addr (world s)).
        induction cs as [|c cs IH]; intros n Ha; cbn in *.
        - apply elem_of_nil in Ha. contradiction.
        - apply elem_of_cons in Ha as [->|Ha].
          + exists c. apply list_elem_of_here.
          + destruct (IH _ Ha) as [c' Hc']. exists c'.
            apply list_elem_of_further, Hc'. }
      destruct Hn as [c Hn]. exists c.
      apply elem_of_app. right. apply elem_of_app. right.
      apply elem_of_app. right. apply elem_of_app. left. exact Hn.
    + rewrite (completed_stage_addrs _ _ _ _ _ _ _ _ _ Hc). apply NoDup_seq.
    + intros kwargs2 s2 Hu2.
      apply (update_fresh _ _ _ (proj2 (reachable_invariant _ Hreach')) Hu2).
  - destruct (update_frame kwargs s) as (_ & _ & _ & [[Hf _]|(cs & Ha & _)]);
      cbv zeta in *; [left; exact Hf|right].
    intros f g Hf Hg.
    assert (Hf' : vtk_addr (getVTKFilter f) ∈ stage_addrs (update kwargs s).2).
    { unfold stage_addrs.
      apply (list_elem_of_fmap_2 (vtk_addr ∘ getVTKFilter)), Hf. }
    rewrite Ha in Hf'. apply elem_of_seq in Hf'.
    destruct (reachable_invariant _ Hreach) as [_ Hall].
    unfold stages_allocated in Hall. rewrite Forall_forall in Hall.
    specialize (Hall g Hg). lia.
Qed.

(** C5. getVTKSource returns the VTK filter of the last filter of the
    ExodusSource, changes neither the adapter nor the source, and its
    result depends on nothing of the adapter but the source it holds:
    not on the options (label_type among them), and not on the adapter's
    own filter list. *)
Theorem getVTKSource_accessor s :
  getVTKSource s =
    (match last (getFilters (exodus s)) with
     | Some f => Ok (getVTKFilter f)
     | None => Raise IndexError
     end, s) ∧
  ∀ b w, (getVTKSource {| self := {| base := b; _exodus_source := exodus s |};
                          world := w |}).1 =
         (getVTKSource s).1.
Proof.
  assert (Hg : ∀ t, getVTKSource t =
    (match last (getFilters (exodus t)) with
     | Some f => Ok (getVTKFilter f)
     | None => Raise IndexError
     end, t)).
  { intros t. unfold getVTKSource. repeat step. rewrite py_getitem_last.
    unfold exodus. destruct (last _); reflexivity. }
  split; [apply Hg|].
  intros b w. rewrite !Hg. reflexivity.
Qed.

(** C6. In every call to update(): when the source is stale, the first
    thing the call does is the delegated ExodusSource.update(), once; the
    options are reset and merged after it, and the rest of the call works
    on the refreshed source (when the refresh raises, the call raises
    with nothing else done); when the source is not stale, no refresh
    call is made and the source is left as it is. *)
Theorem update_refreshes_first kwargs s :
  (needsUpdate (exodus s) = true →
   exodus (update kwargs s).2 = (ExodusSource_update (exodus s)).2 ∧
   ∃ rest,
     new_calls s ((update kwargs s).2) = Call_ExodusSource_update :: rest ∧
     (Call_ExodusSource_update ∉ rest) ∧
     match (ExodusSource_update (exodus s)).1 with
     | Ok _ => ∃ rest', rest = Call_setInitialOptions :: Call_setOptions kwargs :: rest'
     | Raise x => rest = [] ∧ (update kwargs s).1 = Raise x ∧
                  base (self (update kwargs s).2) = base (self s)
     end) ∧
  (needsUpdate (exodus s) = false →
   exodus (update kwargs s).2 = exodus s ∧
   (Call_ExodusSource_update ∉ new_calls s ((update kwargs s).2)) ∧
   ∃ rest', new_calls s ((update kwargs s).2) =
            Call_setInitialOptions :: Call_setOptions kwargs :: rest').
Proof.
  destruct (update_calls kwargs s) as (rest & Hc & Hn & Hm).
  destruct (update_frame kwargs s) as (_ & _ & He & _). cbv zeta in He.
  unfold refreshed in *.
  split; intros Hs; rewrite Hs in *; cbn [fst snd] in *.
  - split; [exact He|]. exists rest. auto.
  - split; [exact He|]. cbn [app] in Hc. rewrite Hc. split; [exact Hn|exact Hm].
Qed.


(** C8. At the end of every completed update() the last stage of the
    new filter chain is the SelectVisiblePoints stage and holds the
    renderer of the adapter, handed over by SetRenderer after the chain
    was wired; no other stage was given a renderer.  This holds in every
    branch of the call. *)
Theorem update_renderer_on_last kwargs s s' :
  update kwargs s = (Ok tt, s') →
  ∃ fs f,
    required_filters s' = fs ++ [f] ∧
    filter_class f = SelectVisiblePoints ∧
    vtk_renderer (getVTKFilter f) = renderer s' ∧
    renderer s' = renderer s ∧
    Forall (λ g, vtk_renderer (getVTKFilter g) = None) fs ∧
    ∃ before,
      new_calls s s' =
      before ++ [Call_super_update (stage_addrs s');
                 Call_SetRenderer (vtk_addr (getVTKFilter f)) (renderer s');
                 Call_FontOptions_set_options (options s')].
Proof.
  intros Hu. destruct (update_Ok_inv _ _ _ Hu)
    as (e' & opts' & lt & cs & m' & pre & post & _ & _ & _ & Hd & Hc).
  rewrite (completed_new_calls _ _ _ _ _ _ _ _ _ Hc),
    (completed_stage_addrs _ _ _ _ _ _ _ _ _ Hc),
    (completed_filters _ _ _ _ _ _ _ _ _ Hc),
    (completed_renderer _ _ _ _ _ _ _ _ _ Hc),
    (completed_options _ _ _ _ _ _ _ _ _ Hc).
  destruct Hd; unfold set_last_renderer; cbn [fresh_stages last length Nat.pred Nat.add].
  - exists [stage IdFilter (next_addr (world s)) None;
            stage CellCenters (S (next_addr (world s))) None].
    eexists. split; [reflexivity|]. repeat split.
    + repeat constructor.
    + eexists. rewrite !app_assoc. reflexivity.
  - exists [stage IdFilter (next_addr (world s)) None].
    eexists. split; [reflexivity|]. repeat split.
    + repeat constructor.
    + eexists. rewrite !app_assoc. reflexivity.
  - exists [stage CellCenters (next_addr (world s)) None].
    eexists. split; [reflexivity|]. repeat split.
    + repeat constructor.
    + eexists. rewrite !app_assoc. reflexivity.
  - exists []. eexists. split; [reflexivity|]. repeat split.
    + constructor.
    + eexists. rewrite !app_assoc. reflexivity.
Qed.

(** C9. The option set of the adapter has a label_type entry that
    admits exactly 'point', 'cell' and 'variable' and defaults to
    'variable'; the inherited justification entry now defaults to
    'center' and the inherited vertical_justification entry to 'middle';
    every other entry is the inherited one, unchanged. *)
Theorem getOptions_entries :
  let inherited :=
    Options.iadd ChiggerSource2D_getOptions FontOptions_get_options in
  getOptions !! "label_type" =
    Some {| Options.value := PyStr "variable";
            Options.default := PyStr "variable";
            Options.doc := "Specify the type of label to create.";
            Options.vtype_ := Options.TStr;
            Options.allow := [PyStr "point"; PyStr "cell"; PyStr "variable"] |} ∧
  (∀ v, Options.accepts getOptions "label_type" v ↔
        v = PyStr "point" ∨ v = PyStr "cell" ∨ v = PyStr "variable") ∧
  Options.get "label_type" (Options.reset getOptions) = Ok (PyStr "variable") ∧
  (∀ o, inherited !! "justification" = Some o →
        getOptions !! "justification" =
        Some {| Options.value := PyStr "center";
                Options.default := PyStr "center";
                Options.doc := Options.doc o;
                Options.vtype_ := Options.vtype_ o;
                Options.allow := Options.allow o |}) ∧
  (∀ o, inherited !! "vertical_justification" = Some o →
        getOptions !! "vertical_justification" =
        Some {| Options.value := PyStr "middle";
                Options.default := PyStr "middle";
                Options.doc := Options.doc o;
                Options.vtype_ := Options.vtype_ o;
                Options.allow := Options.allow o |}) ∧
  (∀ k, k ≠ "label_type" → k ≠ "justification" →
        k ≠ "vertical_justification" →
        getOptions !! k = inherited !! k).
Proof.
  cbv zeta.
  assert (Hl : getOptions !! "label_type" =
    Some {| Options.value := PyStr "variable";
            Options.default := PyStr "variable";
            Options.doc := "Specify the type of label to create.";
            Options.vtype_ := Options.TStr;
            Options.allow := [PyStr "point"; PyStr "cell"; PyStr "variable"] |}).
  { unfold getOptions, Options.setDefault, Options.add.
    rewrite !lookup_alter_ne by discriminate. apply lookup_insert_eq. }
  split; [exact Hl|]. split; [|split; [|split; [|split]]].
  - intros v. unfold Options.accepts. rewrite Hl.
    unfold Options.valid. cbn [Options.vtype_ Options.allow].
    split.
    + intros Hv. apply andb_prop in Hv as [_ Hv].
      apply bool_decide_eq_true_1 in Hv.
      repeat (apply elem_of_cons in Hv; destruct Hv as [Hv|Hv]; [auto|]).
      apply elem_of_nil in Hv. contradiction.
    + intros [-> | [-> | ->]]; reflexivity.
  - unfold Options.get, Options.reset. rewrite lookup_fmap, Hl. reflexivity.
  - intros o Ho. unfold getOptions, Options.setDefault, Options.add.
    rewrite lookup_alter_ne by discriminate.
    rewrite lookup_alter_eq, lookup_insert_ne by discriminate.
    rewrite Ho. reflexivity.
  - intros o Ho. unfold getOptions, Options.setDefault, Options.add.
    rewrite lookup_alter_eq, lookup_alter_ne by discriminate.
    rewrite lookup_insert_ne by discriminate.
    rewrite Ho. reflexivity.
  - intros k H1 H2 H3. unfold getOptions, Options.setDefault, Options.add.
    rewrite !lookup_alter_ne by congruence.
    apply lookup_insert_ne. congruence.
Qed.

(** C10. getVTKSource indexes the filter list of the ExodusSource with
    [-1] and no guard: when the list is not empty the indexing succeeds
    (it cannot raise) and the call returns the VTK filter of the last
    element; when the list is empty the call raises IndexError.  Either
    way the state is left as it was. *)
Theorem getVTKSource_index s :
  (getFilters (exodus s) ≠ [] →
   ∃ f, last (getFilters (exodus s)) = Some f ∧
        py_getitem (getFilters (exodus s)) (-1) = Ok f ∧
        getVTKSource s = (Ok (getVTKFilter f), s)) ∧
  (getFilters (exodus s) = [] →
   py_getitem (getFilters (exodus s)) (-1) = Raise IndexError ∧
   getVTKSource s = (Raise IndexError, s)).
Proof.
  assert (Hg : getVTKSource s =
    match py_getitem (getFilters (exodus s)) (-1) with
    | Ok f => (Ok (getVTKFilter f), s)
    | Raise x => (Raise x, s)
    end).
  { unfold getVTKSource. repeat step. reflexivity. }
  rewrite Hg, py_getitem_last. split.
  - intros Hne. destruct (last (getFilters (exodus s))) as [f|] eqn:El.
    + exists f. auto.
    + apply last_None in El. contradiction.
  - intros ->. auto.
Qed.

(** ** Further properties of the methods *)

(** The stage list and the mapper a raising [update] leaves. *)
Lemma update_Raise_stages kwargs s x s' :
  update kwargs s = (Raise x, s') →
  mapper s' = mapper s ∧
  (required_filters s' = required_filters s ∨
   ∃ cs, (cs = [CellCenters; SelectVisiblePoints] ∨ cs = [SelectVisiblePoints]) ∧
         required_filters s' = fresh_stages cs (next_addr (world s))).
Proof.
  rewrite update_outcome. unfold outcome.
  destruct (refreshed s).1 as [[]|y] eqn:Hr.
  2:{ intros [= -> <-]. unfold required_filters, mapper.
      rewrite base_s_refreshed. auto. }
  destruct (resolved kwargs s) as [opts'|y].
  2:{ intros [= -> <-]. unfold required_filters, mapper, s_reset. proj.
      rewrite base_s_refreshed. auto. }
  destruct (Options.get "label_type" opts') as [lt|y].
  2:{ intros [= -> <-]. unfold required_filters, mapper, s_reset. proj.
      rewrite base_s_refreshed. auto. }
  destruct (decide (lt = PyStr "cell")); [discriminate|].
  destruct (decide (lt = PyStr "point")); [discriminate|].
  destruct (getCurrentVariableInformation _) as [vi|y].
  2:{ intros [= -> <-]. unfold required_filters, mapper, s_reset. proj.
      rewrite base_s_refreshed. auto. }
  destruct (exodus_getOption _ _) as [name|y]; [discriminate|].
  intros [= -> <-]. unfold required_filters, mapper, s_built, s_reset. proj.
  rewrite base_s_refreshed, next_addr_s_refreshed. split; [reflexivity|].
  right. eexists. split; [|reflexivity].
  destruct (decide (object_type vi = ELEMENTAL)); auto.
Qed.

(** X1. Whatever the history of an adapter, the classes of its filter
    list form a subsequence of FILTER_TYPES: only classes named there
    occur, each at most once, in the order of FILTER_TYPES. *)
Theorem required_filters_within_FILTER_TYPES s :
  reachable s → sublist (stage_classes s) FILTER_TYPES.
Proof.
  unfold stage_classes, FILTER_TYPES.
  induction 1 as [obj kwargs w a w' Hi|kwargs s _ IH|s _ IH
                 |kwargs s _ IH|s e r w _ IH Hle].
  - unfold __init__, ChiggerSource2D__init__ in Hi.
    destruct (as_ExodusSource obj); [|discriminate].
    injection Hi as <- <-. apply sublist_nil_l.
  - destruct (update kwargs s) as [[[]|x] s'] eqn:Hu; cbn [snd].
    + destruct (update_Ok_inv _ _ _ Hu)
        as (e' & opts' & lt & cs & m' & pre & post & _ & _ & _ & Hd & Hc).
      fold (stage_classes s').
      rewrite (completed_stage_classes _ _ _ _ _ _ _ _ _ Hc).
      destruct Hd; repeat constructor.
    + destruct (update_Raise_stages _ _ _ _ Hu) as [_ [->|(cs & Hcs & ->)]];
        [exact IH|].
      rewrite stage_classes_fresh. destruct Hcs as [->| ->]; repeat constructor.
  - rewrite getVTKSource_state. exact IH.
  - destruct (setOptions_frame kwargs s) as (_ & -> & _). exact IH.
  - exact IH.
Qed.


(** X3. update() catches nothing: when the refresh, the merge of the
    overrides, the read of label_type or getCurrentVariableInformation()
    raises, update() raises that same exception, and the filter list and
    the mapper are as they were before the call. *)
Theorem update_propagates kwargs s x :
  ((refreshed s).1 = Raise x →
   (update kwargs s).1 = Raise x ∧
   base (self (update kwargs s).2) = base (self s)) ∧
  (∀ e', refreshed s = (Ok tt, e') →
     resolved kwargs s = Raise x →
     (update kwargs s).1 = Raise x ∧
     required_filters (update kwargs s).2 = required_filters s ∧
     mapper (update kwargs s).2 = mapper s) ∧
  (∀ e' opts', refreshed s = (Ok tt, e') →
     resolved kwargs s = Ok opts' →
     Options.get "label_type" opts' = Raise x →
     (update kwargs s).1 = Raise x ∧
     required_filters (update kwargs s).2 = required_filters s ∧
     mapper (update kwargs s).2 = mapper s) ∧
  (∀ e' opts' lt, refreshed s = (Ok tt, e') →
     resolved kwargs s = Ok opts' →
     Options.get "label_type" opts' = Ok lt →
     lt ≠ PyStr "cell" → lt ≠ PyStr "point" →
     getCurrentVariableInformation e' = Raise x →
     (update kwargs s).1 = Raise x ∧
     required_filters (update kwargs s).2 = required_filters s ∧
     mapper (update kwargs s).2 = mapper s).
Proof.
  rewrite update_outcome. unfold outcome.
  split; [|split; [|split]].
  - intros ->. cbn [fst snd]. rewrite base_s_refreshed. auto.
  - intros e' Hr Hm. rewrite Hr, Hm. cbn [fst snd].
    unfold required_filters, mapper, s_reset. proj.
    rewrite base_s_refreshed. auto.
  - intros e' opts' Hr Hm Hl. rewrite Hr, Hm, Hl. cbn [fst snd].
    unfold required_filters, mapper, s_reset. proj.
    rewrite base_s_refreshed. auto.
  - intros e' opts' lt Hr Hm Hl H1 H2 Hv. rewrite Hm, Hl, Hr. cbn [fst].
    rewrite decide_False by assumption. rewrite decide_False by assumption.
    rewrite exodus_after_reset, Hr. cbn [snd]. rewrite Hv. cbn [fst snd].
    unfold required_filters, mapper, s_reset. proj.
    rewrite base_s_refreshed. auto.
Qed.

(** X4. update() is not all-or-nothing in the variable branch: the new
    stages are assigned before the 'variable' option of the source is
    read.  When that read raises, update() raises the same exception and
    leaves the list replaced by the new stages, none of them holding a
    renderer, while the mapper is unchanged and neither the base update
    nor SetRenderer has been called. *)
Theorem update_variable_option_failure kwargs s e' opts' lt vi x :
  refreshed s = (Ok tt, e') →
  resolved kwargs s = Ok opts' →
  Options.get "label_type" opts' = Ok lt →
  lt ≠ PyStr "cell" → lt ≠ PyStr "point" →
  getCurrentVariableInformation e' = Ok vi →
  exodus_getOption e' "variable" = Raise x →
  (update kwargs s).1 = Raise x ∧
  stage_classes (update kwargs s).2 =
    (if decide (object_type vi = ELEMENTAL)
     then [CellCenters; SelectVisiblePoints] else [SelectVisiblePoints]) ∧
  stage_addrs (update kwargs s).2 =
    seq (next_addr (world s)) (length (stage_classes (update kwargs s).2)) ∧
  Forall (λ f, vtk_renderer (getVTKFilter f) = None)
    (required_filters (update kwargs s).2) ∧
  mapper (update kwargs s).2 = mapper s ∧
  (∀ l, Call_super_update l ∉ new_calls s ((update kwargs s).2)) ∧
  (∀ a r, Call_SetRenderer a r ∉ new_calls s ((update kwargs s).2)).
Proof.
  intros Hr Hm Hl H1 H2 Hv Hn.
  rewrite update_outcome. unfold outcome.
  rewrite Hm, Hl, Hr. cbn [fst].
  rewrite decide_False by assumption. rewrite decide_False by assumption.
  rewrite exodus_after_reset, Hr. cbn [snd]. rewrite Hv.
  rewrite exodus_after_build, Hr. cbn [snd]. rewrite Hn. cbn [fst snd].
  unfold stage_classes, stage_addrs, required_filters, mapper, new_calls,
    s_built, allocs, s_reset. proj.
  rewrite base_s_refreshed, next_addr_s_refreshed, calls_s_refreshed.
  rewrite <- !app_assoc, drop_app_length.
  rewrite stage_classes_fresh, stage_addrs_fresh.
  split; [reflexivity|]. split; [reflexivity|]. split; [reflexivity|].
  split; [|split; [reflexivity|]].
  - destruct (decide (object_type vi = ELEMENTAL)); repeat constructor.
  - split; intros; destruct (needsUpdate (exodus s));
      destruct (decide (object_type vi = ELEMENTAL)); not_in_list.
Qed.

(** X5. After a completed update() the filter chain and the mapper
    agree: the chain contains an IdFilter exactly when the mapper labels
    by id, and the mapper labels by field data otherwise. *)
Theorem update_ids_iff_IdFilter kwargs s s' :
  update kwargs s = (Ok tt, s') →
  (IdFilter ∈ stage_classes s' ↔ label_mode (mapper s') = LabelIds) ∧
  (IdFilter ∉ stage_classes s' ↔ label_mode (mapper s') = LabelFieldData).
Proof.
  intros Hu. destruct (update_Ok_inv _ _ _ Hu)
    as (e' & opts' & lt & cs & m' & pre & post & _ & _ & _ & Hd & Hc).
  rewrite (completed_stage_classes _ _ _ _ _ _ _ _ _ Hc),
    (completed_mapper _ _ _ _ _ _ _ _ _ Hc).
  destruct Hd; cbn [label_mode]; (split; split; intros Hx);
    try reflexivity; try discriminate;
    try (apply list_elem_of_here);
    try (exfalso; apply Hx; apply list_elem_of_here);
    try (exfalso; revert Hx; not_in_list);
    try not_in_list.
Qed.

(** X6. A completed update() creates exactly the filters it installs:
    the constructor calls of the call, in order, are those of the stages
    of the new list, in order, and the allocator has moved by the length
    of the list. *)
Theorem update_creates_what_it_installs kwargs s s' :
  update kwargs s = (Ok tt, s') →
  omap created (new_calls s s') =
    (λ f, (filter_class f, vtk_addr (getVTKFilter f))) <$> required_filters s' ∧
  next_addr (world s') = length (required_filters s') + next_addr (world s).
Proof.
  intros Hu. destruct (update_Ok_inv _ _ _ Hu)
    as (e' & opts' & lt & cs & m' & pre & post & _ & _ & _ & Hd & Hc).
  rewrite (completed_new_calls _ _ _ _ _ _ _ _ _ Hc),
    (completed_filters _ _ _ _ _ _ _ _ _ Hc),
    (completed_next _ _ _ _ _ _ _ _ _ Hc).
  destruct Hd; destruct (needsUpdate (exodus s)); split; reflexivity.
Qed.


(** X8. The id branches of update() never call SetFieldDataName: after
    a completed update() that labels by id, the field-data name of the
    mapper is the one it had before the call (a name set by an earlier
    update() in the variable branch stays on the mapper). *)
Theorem update_ids_keep_field_name kwargs s s' :
  update kwargs s = (Ok tt, s') →
  label_mode (mapper s') = LabelIds →
  field_data_name (mapper s') = field_data_name (mapper s) ∧
  ∀ n, Call_SetFieldDataName n ∉ new_calls s s'.
Proof.
  intros Hu Hi. destruct (update_Ok_inv _ _ _ Hu)
    as (e' & opts' & lt & cs & m' & pre & post & _ & _ & _ & Hd & Hc).
  rewrite (completed_mapper _ _ _ _ _ _ _ _ _ Hc) in *.
  rewrite (completed_new_calls _ _ _ _ _ _ _ _ _ Hc).
  destruct Hd; try discriminate Hi;
    (split; [reflexivity|]; intros n; destruct (needsUpdate (exodus s));
     not_in_list).
Qed.

Lemma getVTKSource_run s :
  getVTKSource s =
  (match last (getFilters (exodus s)) with
   | Some f => Ok (getVTKFilter f)
   | None => Raise IndexError
   end, s).
Proof.
  unfold getVTKSource. repeat step. rewrite py_getitem_last.
  unfold exodus. destruct (last _); reflexivity.
Qed.

(** X9. getVTKSource after update(): whatever way the update() ended,
    the accessor answers from the filter list of the source as the
    update() left it, that is the refreshed source when it was stale;
    when the source was not stale, it answers as it did before the
    update(). *)
Theorem getVTKSource_after_update kwargs s :
  (getVTKSource (update kwargs s).2).1 =
    match last (getFilters (refreshed s).2) with
    | Some f => Ok (getVTKFilter f)
    | None => Raise IndexError
    end ∧
  (needsUpdate (exodus s) = false →
   (getVTKSource (update kwargs s).2).1 = (getVTKSource s).1).
Proof.
  destruct (update_frame kwargs s) as (_ & _ & He & _). cbv zeta in He.
  rewrite !getVTKSource_run. cbn [fst]. rewrite He.
  split; [reflexivity|].
  intros Hs. unfold refreshed. rewrite Hs. reflexivity.
Qed.




End Properties.

(** ** The claims on the concrete setting *)

#[local] Existing Instance demo.

Lemma update_label_by_id_witness :
  (∃ s', update (kw_label "cell") (s_demo (source_demo true 1)) = (Ok tt, s') ∧
     options s' = <["label_type" :=
                     {| Options.value := PyStr "cell";
                        Options.default := PyStr "variable";
                        Options.doc := "Specify the type of label to create.";
                        Options.vtype_ := Options.TStr;
                        Options.allow := [PyStr "point"; PyStr "cell";
                                          PyStr "variable"] |}]>
                  (Options.reset getOptions) ∧
     stage_classes s' = [IdFilter; CellCenters; SelectVisiblePoints] ∧
     label_mode (mapper s') = LabelIds ∧
     Call_getCurrentVariableInformation ∉ new_calls (s_demo (source_demo true 1)) s') ∧
  (∃ s', update (kw_label "point") (s_demo source_empty) = (Ok tt, s') ∧
     options s' = <["label_type" :=
                     {| Options.value := PyStr "point";
                        Options.default := PyStr "variable";
                        Options.doc := "Specify the type of label to create.";
                        Options.vtype_ := Options.TStr;
                        Options.allow := [PyStr "point"; PyStr "cell";
                                          PyStr "variable"] |}]>
                  (Options.reset getOptions) ∧
     stage_classes s' = [IdFilter; SelectVisiblePoints] ∧
     label_mode (mapper s') = LabelIds ∧
     Call_getCurrentVariableInformation ∉ new_calls (s_demo source_empty) s').
Proof.
  split.
  - refine (proj1 (update_label_by_id (H:=demo) (kw_label "cell")
              (s_demo (source_demo true 1)) (mark_updated (source_demo true 1))
              _ _ _) _); vm_compute; reflexivity.
  - refine (proj2 (update_label_by_id (H:=demo) (kw_label "point")
              (s_demo source_empty) (mark_updated source_empty)
              _ _ _) _); vm_compute; reflexivity.
Defined.


Lemma s_demo_reachable e : reachable (s_demo e).
Proof.
  apply (reachable_init (PyExodusSource e) ∅ world_demo). reflexivity.
Defined.

Lemma update_rebuilds_chain_witness :
  let s := s_demo (source_demo true 1) in
  let s1 := (update (kw_label "cell") s).2 in
  stage_classes s1 = [IdFilter; CellCenters; SelectVisiblePoints] ∧
  stage_addrs s1 = [10; 11; 12] ∧
  ∀ s2, update (kw_label "point") s1 = (Ok tt, s2) →
    ∀ f g, f ∈ required_filters s2 → g ∈ required_filters s1 →
           vtk_addr (getVTKFilter f) ≠ vtk_addr (getVTKFilter g).
Proof.
  cbv zeta.
  assert (Hu : update (kw_label "cell") (s_demo (source_demo true 1)) =
               (Ok tt, (update (kw_label "cell") (s_demo (source_demo true 1))).2))
    by (vm_compute; reflexivity).
  destruct (proj1 (update_rebuilds_chain (H:=demo) (kw_label "cell") _
                     (s_demo_reachable (source_demo true 1))) _ Hu)
    as (_ & _ & _ & _ & H2).
  split; [vm_compute; reflexivity|]. split; [vm_compute; reflexivity|].
  intros s2. apply H2.
Defined.

Lemma update_refreshes_first_witness :
  (∃ rest,
     new_calls (s_demo (source_demo true 1))
       ((update ∅ (s_demo (source_demo true 1))).2) =
     Call_ExodusSource_update :: rest ∧
     (Call_ExodusSource_update ∉ rest)) ∧
  (Call_ExodusSource_update ∉
   new_calls (s_demo (source_demo false 1))
     ((update ∅ (s_demo (source_demo false 1))).2)).
Proof.
  split.
  - destruct (proj1 (update_refreshes_first (H:=demo) ∅ (s_demo (source_demo true 1)))
                eq_refl) as (_ & rest & Hc & Hn & _).
    exists rest. split; [exact Hc|exact Hn].
  - exact (proj1 (proj2 (proj2 (update_refreshes_first (H:=demo) ∅
             (s_demo (source_demo false 1))) eq_refl))).
Defined.



Lemma update_renderer_on_last_witness :
  ∃ fs f,
    required_filters (update ∅ (s_rendered (source_demo true 1))).2 = fs ++ [f] ∧
    filter_class f = SelectVisiblePoints ∧
    vtk_renderer (getVTKFilter f) = Some 7.
Proof.
  assert (Hu : update ∅ (s_rendered (source_demo true 1)) =
               (Ok tt, (update ∅ (s_rendered (source_demo true 1))).2))
    by (vm_compute; reflexivity).
  destruct (update_renderer_on_last (H:=demo) _ _ _ Hu)
    as (fs & f & Hf & Hc & Hr & Hr' & _).
  exists fs, f. split; [exact Hf|]. split; [exact Hc|].
  rewrite Hr, Hr'. reflexivity.
Defined.

Lemma getOptions_entries_witness :
  getOptions !! "justification" =
    Some {| Options.value := PyStr "center"; Options.default := PyStr "center";
            Options.doc := "Horizontal justification.";
            Options.vtype_ := Options.TStr;
            Options.allow := [PyStr "left"; PyStr "center"; PyStr "right"] |} ∧
  getOptions !! "font_size" = font_options_demo !! "font_size" ∧
  getOptions !! "visible" = base_options_demo !! "visible".
Proof.
  destruct (getOptions_entries (H:=demo)) as (_ & _ & _ & Hj & _ & Hk).
  split.
  { apply (Hj {| Options.value := PyStr "left"; Options.default := PyStr "left";
                 Options.doc := "Horizontal justification.";
                 Options.vtype_ := Options.TStr;
                 Options.allow := [PyStr "left"; PyStr "center"; PyStr "right"] |}).
    vm_compute; reflexivity. }
  split.
  - rewrite (Hk "font_size") by discriminate. vm_compute; reflexivity.
  - rewrite (Hk "visible") by discriminate. vm_compute; reflexivity.
Defined.

Lemma getVTKSource_index_witness :
  getVTKSource (s_demo (source_demo true 1)) =
    (Ok {| vtk_addr := 4; vtk_renderer := None |}, s_demo (source_demo true 1)) ∧
  getVTKSource (s_demo source_empty) = (Raise IndexError, s_demo source_empty).
Proof.
  split.
  - assert (Hne : getFilters (exodus (s_demo (source_demo true 1))) ≠ [])
      by discriminate.
    destruct (proj1 (getVTKSource_index (s_demo (source_demo true 1)))
                Hne) as (f & Hl & _ & Hg).
    rewrite Hg. injection Hl as <-. reflexivity.
  - exact (proj2 (proj2 (getVTKSource_index (s_demo source_empty)) eq_refl)).
Defined.


(** ** Examples *)

Example py_getitem_examples :
  py_getitem [1; 2; 3] (-1) = Ok 3 ∧
  py_getitem [1; 2; 3] 0 = Ok 1 ∧
  py_getitem [1; 2; 3] (-3) = Ok 1 ∧
  py_getitem [1; 2; 3] 3 = Raise IndexError ∧
  py_getitem [1; 2; 3] (-4) = Raise IndexError ∧
  py_getitem (@nil nat) (-1) = Raise IndexError.
Proof. repeat split. Qed.

Example init_with_a_reader :
  (__init__ (PyOther "ExodusReader") ∅ world_demo).1 =
  Raise (MooseException
    "The supplied object of type ExodusReader must be a ExodusSource object.").
Proof. reflexivity. Qed.

Example update_default_on_nodal_variable :
  let s' := (update ∅ (s_rendered (source_demo true 15))).2 in
  required_filters s' = [stage SelectVisiblePoints 10 (Some 7)] ∧
  mapper s' = {| label_mode := LabelFieldData; field_data_name := PyStr "u" |} ∧
  needsUpdate (exodus s') = false.
Proof. vm_compute. repeat split. Qed.

Example update_point_then_cell :
  let s1 := (update (kw_label "point") (s_rendered (source_demo true 15))).2 in
  let s2 := (update (kw_label "cell") s1).2 in
  required_filters s1 =
    [stage IdFilter 10 None; stage SelectVisiblePoints 11 (Some 7)] ∧
  required_filters s2 =
    [stage IdFilter 12 None; stage CellCenters 13 None;
     stage SelectVisiblePoints 14 (Some 7)] ∧
  new_calls s1 s2 =
    [Call_setInitialOptions; Call_setOptions (kw_label "cell");
     Call_new IdFilter 12; Call_new CellCenters 13;
     Call_new SelectVisiblePoints 14; Call_SetLabelModeToLabelIds;
     Call_super_update [12; 13; 14]; Call_SetRenderer 14 (Some 7);
     Call_FontOptions_set_options (options s2)].
Proof. vm_compute. repeat split. Qed.

Example update_rejects_unknown_label_type :
  let s := s_demo (source_demo false 1) in
  (update (kw_label "node") s).1 = Raise OptionError ∧
  required_filters (update (kw_label "node") s).2 = [].
Proof. vm_compute. repeat split. Qed.

Example update_without_variable_metadata :
  let s := s_demo source_empty in
  (update ∅ s).1 = Raise (CollaboratorError "no variable") ∧
  (update (kw_label "point") s).1 = Ok tt.
Proof. vm_compute. repeat split. Qed.

(** ** The further properties on the concrete setting *)

Lemma required_filters_within_FILTER_TYPES_witness :
  sublist
    (stage_classes (update (kw_label "point") (s_demo (source_demo true 1))).2)
    FILTER_TYPES.
Proof.
  apply (required_filters_within_FILTER_TYPES (H:=demo)).
  apply reachable_update, s_demo_reachable.
Defined.


Lemma update_propagates_witness :
  ((update (H:=demo_failing) ∅ (s_demo (source_demo true 1))).1 =
     Raise (CollaboratorError "read")) ∧
  ((update (kw_label "node") (s_demo (source_demo false 1))).1 = Raise OptionError ∧
   required_filters (update (kw_label "node") (s_demo (source_demo false 1))).2 = []) ∧
  ((update ∅ (with_base (set_options ∅) (s_demo (source_demo false 1)))).1 =
     Raise (KeyError "label_type")) ∧
  ((update ∅ (s_demo source_empty)).1 = Raise (CollaboratorError "no variable") ∧
   required_filters (update ∅ (s_demo source_empty)).2 = []).
Proof.
  split; [|split; [|split]].
  - apply (proj1 (update_propagates (H:=demo_failing) ∅
                    (s_demo (source_demo true 1)) (CollaboratorError "read"))).
    vm_compute. reflexivity.
  - assert (Hr : refreshed (s_demo (source_demo false 1)) =
                 (Ok tt, source_demo false 1)) by (vm_compute; reflexivity).
    assert (Hm : resolved (kw_label "node") (s_demo (source_demo false 1)) =
                 Raise OptionError) by (vm_compute; reflexivity).
    destruct (proj1 (proj2 (update_propagates (H:=demo) (kw_label "node")
                (s_demo (source_demo false 1)) OptionError)) _ Hr Hm)
      as (Hx & Hf & _).
    split; [exact Hx|exact Hf].
  - assert (Hr : refreshed (with_base (set_options ∅) (s_demo (source_demo false 1))) =
                 (Ok tt, source_demo false 1)) by (vm_compute; reflexivity).
    assert (Hm : resolved ∅ (with_base (set_options ∅) (s_demo (source_demo false 1))) =
                 Ok ∅) by (vm_compute; reflexivity).
    assert (Hl : Options.get "label_type" ∅ = Raise (KeyError "label_type"))
      by reflexivity.
    exact (proj1 (proj1 (proj2 (proj2 (update_propagates (H:=demo) ∅
             (with_base (set_options ∅) (s_demo (source_demo false 1)))
             (KeyError "label_type")))) _ _ Hr Hm Hl)).
  - assert (Hr : refreshed (s_demo source_empty) =
                 (Ok tt, mark_updated source_empty)) by (vm_compute; reflexivity).
    assert (Hm : resolved ∅ (s_demo source_empty) =
                 Ok (resolved_demo ∅ source_empty)) by (vm_compute; reflexivity).
    assert (Hl : Options.get "label_type" (resolved_demo ∅ source_empty) =
                 Ok (PyStr "variable")) by (vm_compute; reflexivity).
    assert (H1 : PyStr "variable" ≠ PyStr "cell") by discriminate.
    assert (H2 : PyStr "variable" ≠ PyStr "point") by discriminate.
    destruct (proj2 (proj2 (proj2 (update_propagates (H:=demo) ∅
                (s_demo source_empty) (CollaboratorError "no variable"))))
                _ _ _ Hr Hm Hl H1 H2 eq_refl) as (Hx & Hf & _).
    split; [exact Hx|exact Hf].
Defined.

Lemma update_variable_option_failure_witness :
  (update ∅ (s_demo source_unnamed)).1 = Raise (KeyError "variable") ∧
  stage_classes (update ∅ (s_demo source_unnamed)).2 =
    [CellCenters; SelectVisiblePoints] ∧
  stage_addrs (update ∅ (s_demo source_unnamed)).2 = [10; 11].
Proof.
  assert (Hr : refreshed (s_demo source_unnamed) = (Ok tt, source_unnamed))
    by (vm_compute; reflexivity).
  assert (Hm : resolved ∅ (s_demo source_unnamed) =
               Ok (resolved_demo ∅ source_unnamed)) by (vm_compute; reflexivity).
  assert (Hl : Options.get "label_type" (resolved_demo ∅ source_unnamed) =
               Ok (PyStr "variable")) by (vm_compute; reflexivity).
  assert (H1 : PyStr "variable" ≠ PyStr "cell") by discriminate.
  assert (H2 : PyStr "variable" ≠ PyStr "point") by discriminate.
  assert (Hv : getCurrentVariableInformation source_unnamed =
               Ok {| object_type := 1 |}) by reflexivity.
  assert (Hn : exodus_getOption source_unnamed "variable" =
               Raise (KeyError "variable")) by reflexivity.
  destruct (update_variable_option_failure (H:=demo) _ _ _ _ _ _ _
              Hr Hm Hl H1 H2 Hv Hn) as (Hx & Hc & Ha & _).
  split; [exact Hx|]. split; [exact Hc|].
  rewrite Ha, Hc. reflexivity.
Defined.

Lemma s_after_cell_run :
  update (kw_label "cell") (s_demo (source_demo true 1)) =
  (Ok tt, (update (kw_label "cell") (s_demo (source_demo true 1))).2).
Proof. vm_compute. reflexivity. Defined.

Lemma update_ids_iff_IdFilter_witness :
  label_mode (mapper (update (kw_label "cell") (s_demo (source_demo true 1))).2) =
  LabelIds.
Proof.
  apply (proj1 (update_ids_iff_IdFilter (H:=demo) _ _ _ s_after_cell_run)).
  vm_compute. apply list_elem_of_here.
Defined.

Lemma update_creates_what_it_installs_witness :
  omap created
    (new_calls (s_demo (source_demo true 1))
       ((update (kw_label "cell") (s_demo (source_demo true 1))).2)) =
  [(IdFilter, 10); (CellCenters, 11); (SelectVisiblePoints, 12)].
Proof.
  rewrite (proj1 (update_creates_what_it_installs (H:=demo) _ _ _ s_after_cell_run)).
  vm_compute. reflexivity.
Defined.


Lemma update_ids_keep_field_name_witness :
  let s1 := (update ∅ (s_demo (source_demo true 1))).2 in
  field_data_name (mapper (update (kw_label "cell") s1).2) = PyStr "u".
Proof.
  cbv zeta.
  assert (Hu : update (kw_label "cell") (update ∅ (s_demo (source_demo true 1))).2 =
               (Ok tt, (update (kw_label "cell")
                          (update ∅ (s_demo (source_demo true 1))).2).2))
    by (vm_compute; reflexivity).
  assert (Hi : label_mode (mapper (update (kw_label "cell")
                 (update ∅ (s_demo (source_demo true 1))).2).2) = LabelIds)
    by (vm_compute; reflexivity).
  rewrite (proj1 (update_ids_keep_field_name (H:=demo) _ _ _ Hu Hi)).
  vm_compute. reflexivity.
Defined.

Lemma getVTKSource_after_update_witness :
  (getVTKSource (update ∅ (s_demo (source_demo false 1))).2).1 =
  Ok {| vtk_addr := 4; vtk_renderer := None |}.
Proof.
  rewrite (proj2 (getVTKSource_after_update (H:=demo) ∅
                    (s_demo (source_demo false 1))) eq_refl).
  vm_compute. reflexivity.
Defined.

